(** * A shallow embedding of the BEARS-TP test harness (TestHarness.py)

    The packet abstraction ([Packet.__init__], [Packet.update_packet]) and
    the forwarder ([Forwarder._tick], [_send], [handle_receive], [start]).
    Python 2 strings are byte strings, modelled as [String.string]. *)

From Stdlib Require Import String Ascii List ZArith Bool Lia.
From Stdlib Require Import DecimalZ DecimalPos.
Import ListNotations.
Open Scope string_scope.
Open Scope Z_scope.

(** ** Python built-ins used by the harness *)

(** [str.split(sep)]: always at least one piece. *)
Fixpoint str_split (sep : ascii) (s : string) : list string :=
  match s with
  | EmptyString => [EmptyString]
  | String c s' =>
      let rest := str_split sep s' in
      if Ascii.eqb c sep then EmptyString :: rest
      else match rest with
           | x :: r => String c x :: r
           | [] => [String c EmptyString]
           end
  end.

(** [sep.join(pieces)]. *)
Fixpoint str_join (sep : ascii) (l : list string) : string :=
  match l with
  | [] => EmptyString
  | [x] => x
  | x :: r => x ++ String sep (str_join sep r)
  end.

Definition bar : ascii := "|"%char.

(** Every character of [s] satisfies [P]. *)
Fixpoint str_forall (P : ascii -> bool) (s : string) : bool :=
  match s with
  | EmptyString => true
  | String c s' => P c && str_forall P s'
  end.

(** The characters [int()] skips around its argument. *)
Definition is_space (c : ascii) : bool :=
  match nat_of_ascii c with
  | 32 | 9 | 10 | 11 | 12 | 13 => true
  | _ => false
  end%nat.

Fixpoint drop_space (l : list ascii) : list ascii :=
  match l with
  | c :: r => if is_space c then drop_space r else l
  | [] => []
  end.

Definition strip (s : string) : string :=
  string_of_list_ascii
    (rev (drop_space (rev (drop_space (list_ascii_of_string s))))).

Definition digit_of (c : ascii) : option (Decimal.uint -> Decimal.uint) :=
  match nat_of_ascii c with
  | 48 => Some Decimal.D0 | 49 => Some Decimal.D1 | 50 => Some Decimal.D2
  | 51 => Some Decimal.D3 | 52 => Some Decimal.D4 | 53 => Some Decimal.D5
  | 54 => Some Decimal.D6 | 55 => Some Decimal.D7 | 56 => Some Decimal.D8
  | 57 => Some Decimal.D9
  | _ => None
  end%nat.

(** A string of decimal digits, most significant first. *)
Fixpoint str_uint (s : string) : option Decimal.uint :=
  match s with
  | EmptyString => Some Decimal.Nil
  | String c s' =>
      match digit_of c, str_uint s' with
      | Some d, Some u => Some (d u)
      | _, _ => None
      end
  end.

Fixpoint uint_str (u : Decimal.uint) : string :=
  match u with
  | Decimal.Nil => EmptyString
  | Decimal.D0 u => String "0" (uint_str u)
  | Decimal.D1 u => String "1" (uint_str u)
  | Decimal.D2 u => String "2" (uint_str u)
  | Decimal.D3 u => String "3" (uint_str u)
  | Decimal.D4 u => String "4" (uint_str u)
  | Decimal.D5 u => String "5" (uint_str u)
  | Decimal.D6 u => String "6" (uint_str u)
  | Decimal.D7 u => String "7" (uint_str u)
  | Decimal.D8 u => String "8" (uint_str u)
  | Decimal.D9 u => String "9" (uint_str u)
  end.

Definition digits_value (s : string) : option Decimal.uint :=
  match s with
  | EmptyString => None
  | _ => str_uint s
  end.

(** Leading whitespace removed. *)
Definition lstrip (s : string) : string :=
  string_of_list_ascii (drop_space (list_ascii_of_string s)).

(** Python 2's [int(s)] on a string ([PyInt_FromString] in base 10):
    surrounding whitespace, an optional sign, whitespace again (the digits
    are read by [PyOS_strtoul], which skips it), and at least one decimal
    digit up to the end; [None] is the [ValueError]. Values outside a C
    long are re-read by [PyLong_FromString], which accepts the same shape
    and gives the same value. *)
Definition py_int (s : string) : option Z :=
  match strip s with
  | String c r =>
      if Ascii.eqb c "-" then
        option_map (fun u => Z.of_int (Decimal.Neg u)) (digits_value (lstrip r))
      else if Ascii.eqb c "+" then
        option_map (fun u => Z.of_int (Decimal.Pos u)) (digits_value (lstrip r))
      else option_map (fun u => Z.of_int (Decimal.Pos u)) (digits_value (String c r))
  | EmptyString => None
  end.

(** ["%d" % n]. *)
Definition fmt_d (n : Z) : string :=
  match Z.to_int n with
  | Decimal.Pos u => uint_str u
  | Decimal.Neg u => String "-" (uint_str u)
  end.

(** Modelled from the spec: [Checksum.generate_checksum] (Checksum.py is not
    part of the sources). The spec only says that the checksum is a decimal
    integer token computed over the body by an external function; that
    function is the parameter [crc]. *)
Definition generate_checksum (crc : string -> N) (body : string) : string :=
  fmt_d (Z.of_N (crc body)).

(** ** Exceptions and Python values *)

Inductive exn :=
| AttributeError
| TypeError
| ValueError_unknown_source   (* raise ValueError("Packet from unknown source") *)
| Exception_timed_out         (* raise Exception("Test timed out!") *)
| KeyboardInterrupt
| SystemExit.

Inductive outcome (A : Type) :=
| Ok (a : A)
| Raise (e : exn).
Arguments Ok {A} a.
Arguments Raise {A} e.

(** An address tuple: [None], or [(host, port)] whose components may be
    [None] (the probe address [(None, None)] of [handle_receive]). *)
Inductive pyaddr :=
| NoAddr
| Tup (host : option string) (port : option Z).

Definition pyaddr_eqb (a b : pyaddr) : bool :=
  match a, b with
  | NoAddr, NoAddr => true
  | Tup h p, Tup h' p' =>
      match h, h' with
      | Some x, Some y => String.eqb x y
      | None, None => true
      | _, _ => false
      end &&
      match p, p' with
      | Some x, Some y => Z.eqb x y
      | None, None => true
      | _, _ => false
      end
  | _, _ => false
  end.

(** The [seqno] attribute holds the string piece until [int()] succeeds. *)
Inductive seqval :=
| SeqStr (s : string)
| SeqInt (n : Z).

(** ** Packet *)

(** Attributes of a [Packet] object; [None] is an attribute never assigned. *)
Record Packet := {
  full_packet : string;
  address : pyaddr;
  start_seqno_base : Z;
  msg_type : option string;
  seqno : option seqval;
  checksum : option string;
  data : option string;
  bogon : bool
}.

Definition incoming_types : list string := ["start"; "data"; "ack"; "end"].

Definition incoming_type (t : string) : bool :=
  existsb (String.eqb t) incoming_types.

(** [Packet.__init__(packet, address, start_seqno_base)]. Attributes are
    assigned one by one inside the [try]; the [except] sets [bogon] and
    keeps whatever was assigned before the failure. *)
Definition Packet_init (packet : string) (addr : pyaddr) (base : Z) : Packet :=
  let failed mt sq ck d :=
    {| full_packet := packet; address := addr; start_seqno_base := base;
       msg_type := mt; seqno := sq; checksum := ck; data := d;
       bogon := true |} in
  let pieces := str_split bar packet in
  match pieces with
  | t :: s :: _ =>
      (* self.msg_type, self.seqno = pieces[0:2] *)
      let ck := last pieces EmptyString in                              (* pieces[-1] *)
      let d := str_join bar (firstn (length pieces - 3)%nat (skipn 2 pieces)) in (* pieces[2:-1] *)
      match py_int s with
      | None => failed (Some t) (Some (SeqStr s)) (Some ck) (Some d)
      | Some n =>
          let sq := Some (SeqInt (n - base)) in
          if incoming_type t then
            match py_int ck with
            | Some _ =>
                {| full_packet := packet; address := addr; start_seqno_base := base;
                   msg_type := Some t; seqno := sq; checksum := Some ck;
                   data := Some d; bogon := false |}
            | None => failed (Some t) sq (Some ck) (Some d)
            end
          else failed (Some t) sq (Some ck) (Some d)
      end
  | _ => failed None None None None   (* unpacking pieces[0:2] fails *)
  end.

Definition get_attr {A} (o : option A) : outcome A :=
  match o with
  | Some a => Ok a
  | None => Raise AttributeError
  end.

Definition bind_outcome {A B} (m : outcome A) (f : A -> outcome B) : outcome B :=
  match m with
  | Ok a => f a
  | Raise e => Raise e
  end.

Notation "x <-? m ;; k" := (bind_outcome m (fun x => k))
  (at level 61, m at next level, right associativity).

(** [Packet.update_packet(msg_type, seqno, data, full_packet,
    update_checksum)]; [None] arguments are Python's default [None]. All
    failures happen before the first assignment to [self]. *)
Definition update_packet (crc : string -> N) (self : Packet)
    (msg_type' : option string) (seqno' : option Z) (data' : option string)
    (full_packet' : option string) (update_checksum : bool) : outcome Packet :=
  if bogon self then Ok self
  else
    mt <-? (match msg_type' with Some m => Ok m | None => get_attr (msg_type self) end) ;;
    sq <-? (match seqno' with
            | Some n => Ok n
            | None =>
                v <-? get_attr (seqno self) ;;
                match v with SeqInt n => Ok n | SeqStr _ => Raise TypeError end
            end) ;;
    d <-? (match data' with Some x => Ok x | None => get_attr (data self) end) ;;
    let body :=
      if (0 <? Z.of_nat (String.length d))%Z
      then mt ++ "|" ++ fmt_d sq ++ "|" ++ d ++ "|"
      else mt ++ "|" ++ fmt_d sq ++ "|" in
    ck <-? (if update_checksum then Ok (generate_checksum crc body)
            else get_attr (checksum self)) ;;
    Ok {| full_packet :=
            match full_packet' with
            | Some f => if (0 <? Z.of_nat (String.length f))%Z then f else body ++ ck
            | None => body ++ ck
            end;
          address := address self; start_seqno_base := start_seqno_base self;
          msg_type := Some mt; seqno := Some (SeqInt sq); checksum := Some ck;
          data := Some d; bogon := bogon self |}.

(** An override argument of [update_packet], or the current value. *)
Definition override {A} (o : option A) (cur : A) : A :=
  match o with
  | Some x => x
  | None => cur
  end.

(** The body of a serialized packet as the spec words it (section 4.1):
    [type|seqno|payload|] when the payload is non-empty, else [type|seqno|]. *)
Definition spec_body (t : string) (n : Z) (d : string) : string :=
  if String.eqb d "" then t ++ "|" ++ fmt_d n ++ "|"
  else t ++ "|" ++ fmt_d n ++ "|" ++ d ++ "|".

(** The packets a program can hold: built by [Packet.__init__], then edited
    by any sequence of [update_packet] calls (test cases may call it). *)
Inductive reachable (crc : string -> N) : Packet -> Prop :=
| reach_init raw addr base : reachable crc (Packet_init raw addr base)
| reach_update p mt sq d fp uc p' :
    reachable crc p -> update_packet crc p mt sq d fp uc = Ok p' -> reachable crc p'.

(** ** Forwarder *)

Module Forwarder.

Inductive test_state_t := INIT | NEW | READY.

(** Observable actions, in the order they happen. *)
Inductive action :=
| SpawnReceiver (port : Z)
| SpawnSender (input_file : string) (port : Z)
| HandlePacket                      (* current_test.handle_packet() *)
| HandleTick                        (* current_test.handle_tick(tick_interval) *)
| SendTo (bytes : string) (dst : pyaddr)   (* sock.sendto *)
| KillSender
| KillReceiver
| Result (outfile : string).        (* current_test.result(recv_outfile) *)

Definition is_send (a : action) : bool :=
  match a with
  | SendTo _ _ => true
  | _ => false
  end.

(** Packet objects live in [heap] and are referred to by their index, so
    that the queues (and the test case) share them as Python does. *)
Definition loc := nat.

(** The forwarder object's attributes for one test case; [None] is an
    attribute not yet assigned. *)
Record Fwd := {
  port : Z;
  receiver_port : Z;
  input_file : string;               (* self.tests[self.current_test] *)
  test_state : test_state_t;
  sender_addr : pyaddr;
  receiver_addr : pyaddr;
  start_seqno_base : option Z;
  recv_outfile : option string;
  heap : list Packet;
  in_queue : list loc;
  out_queue : list loc;
  sender_running : bool;
  receiver_running : bool;
  trace : list action
}.

(** The capability set of a test case. In this model a test case moves
    packet references between the two queues; its edits of packets are
    covered by [update_packet] and [reachable]. The tick interval passed to
    [handle_tick] is the constant [0.001]. *)
Record TestCase := {
  handle_packet : list loc * list loc -> list loc * list loc;
  handle_tick : list loc * list loc -> list loc * list loc;
  result : string -> bool
}.

(** [Forwarder.__init__] after its path checks. *)
Definition Forwarder_init (p : Z) (input : string) : Fwd :=
  {| port := p; receiver_port := p + 1; input_file := input;
     test_state := INIT; sender_addr := NoAddr; receiver_addr := NoAddr;
     start_seqno_base := None; recv_outfile := None; heap := [];
     in_queue := []; out_queue := []; sender_running := false;
     receiver_running := false; trace := [] |}.

(** A state and exception monad: an exception keeps the assignments made
    before it, as in Python. *)
Definition M (A : Type) := Fwd -> Fwd * outcome A.

Definition ret {A} (a : A) : M A := fun f => (f, Ok a).
Definition raise {A} (e : exn) : M A := fun f => (f, Raise e).
Definition bind {A B} (m : M A) (k : A -> M B) : M B :=
  fun f => match m f with
           | (f', Ok a) => k a f'
           | (f', Raise e) => (f', Raise e)
           end.
Definition get : M Fwd := fun f => (f, Ok f).
Definition modify (g : Fwd -> Fwd) : M unit := fun f => (g f, Ok tt).
Definition lift {A} (o : outcome A) : M A := fun f => (f, o).
(** [try: m except ...]: run [m] and observe how it ended. *)
Definition catch {A} (m : M A) : M (outcome A) :=
  fun f => let (f', r) := m f in (f', Ok r).

Notation "x <- m ;; k" := (bind m (fun x => k))
  (at level 61, m at next level, right associativity).
Notation "m ;;; k" := (bind m (fun _ => k))
  (at level 61, right associativity).

Definition with_state (ts : test_state_t) (sa : pyaddr) (ra : pyaddr)
    (base : option Z) (f : Fwd) : Fwd :=
  {| port := port f; receiver_port := receiver_port f;
     input_file := input_file f; test_state := ts; sender_addr := sa;
     receiver_addr := ra; start_seqno_base := base;
     recv_outfile := recv_outfile f; heap := heap f; in_queue := in_queue f;
     out_queue := out_queue f; sender_running := sender_running f;
     receiver_running := receiver_running f; trace := trace f |}.

Definition with_store (h : list Packet) (iq oq : list loc) (f : Fwd) : Fwd :=
  {| port := port f; receiver_port := receiver_port f;
     input_file := input_file f; test_state := test_state f;
     sender_addr := sender_addr f; receiver_addr := receiver_addr f;
     start_seqno_base := start_seqno_base f; recv_outfile := recv_outfile f;
     heap := h; in_queue := iq; out_queue := oq;
     sender_running := sender_running f;
     receiver_running := receiver_running f; trace := trace f |}.

Definition with_procs (o : option string) (s r : bool) (f : Fwd) : Fwd :=
  {| port := port f; receiver_port := receiver_port f;
     input_file := input_file f; test_state := test_state f;
     sender_addr := sender_addr f; receiver_addr := receiver_addr f;
     start_seqno_base := start_seqno_base f; recv_outfile := o;
     heap := heap f; in_queue := in_queue f; out_queue := out_queue f;
     sender_running := s; receiver_running := r; trace := trace f |}.

Definition emit (a : action) : M unit :=
  modify (fun f =>
    {| port := port f; receiver_port := receiver_port f;
       input_file := input_file f; test_state := test_state f;
       sender_addr := sender_addr f; receiver_addr := receiver_addr f;
       start_seqno_base := start_seqno_base f; recv_outfile := recv_outfile f;
       heap := heap f; in_queue := in_queue f; out_queue := out_queue f;
       sender_running := sender_running f;
       receiver_running := receiver_running f; trace := trace f ++ [a] |}).

Fixpoint replace_nth {A} (n : nat) (x : A) (l : list A) : list A :=
  match l, n with
  | [], _ => []
  | _ :: r, O => x :: r
  | y :: r, S n' => y :: replace_nth n' x r
  end.

Definition deref (l : loc) : M Packet :=
  f <- get ;;
  lift (match nth_error (heap f) l with
        | Some p => Ok p
        | None => Raise AttributeError
        end).

Definition store (l : loc) (p : Packet) : M unit :=
  modify (fun f => with_store (replace_nth l p (heap f)) (in_queue f) (out_queue f) f).

(** [self.sock.sendto(bytes, addr)] needs a [(host, port)] tuple. *)
Definition sendto (bytes : string) (a : pyaddr) : M unit :=
  match a with
  | Tup (Some _) (Some _) => emit (SendTo bytes a)
  | _ => raise TypeError
  end.

Section Ops.
Variable crc : string -> N.
Variable tc : TestCase.

(** [Forwarder._send(packet)]:
    [packet.update_packet(seqno=packet.seqno + self.start_seqno_base)],
    which mutates the shared packet object, then [sendto]. *)
Definition _send (l : loc) : M unit :=
  p <- deref l ;;
  sq <- lift (get_attr (seqno p)) ;;
  f <- get ;;
  base <- lift (get_attr (start_seqno_base f)) ;;
  n <- lift (match sq with SeqInt n => Ok n | SeqStr _ => Raise TypeError end) ;;
  p' <- lift (update_packet crc p None (Some (n + base)) None None true) ;;
  store l p' ;;;
  sendto (full_packet p') (address p').

Fixpoint send_all (ls : list loc) : M unit :=
  match ls with
  | [] => ret tt
  | l :: r => _send l ;;; send_all r
  end.

(** [Forwarder._tick()]. *)
Definition _tick : M unit :=
  emit HandleTick ;;;
  modify (fun f =>
    let (iq, oq) := handle_tick tc (in_queue f, out_queue f) in
    with_store (heap f) iq oq f) ;;;
  f <- get ;;
  send_all (out_queue f) ;;;
  modify (fun f => with_store (heap f) (in_queue f) [] f).

Definition seqno_value (p : Packet) : option Z :=
  match seqno p with
  | Some (SeqInt n) => Some n
  | _ => None
  end.

Definition port_of (a : pyaddr) : option Z :=
  match a with
  | Tup _ p => p
  | NoAddr => None
  end.

(** [Forwarder.handle_receive(message, address)]. *)
Definition handle_receive (message : string) (a : pyaddr) : M unit :=
  f <- get ;;
  (match test_state f with
   | NEW =>
       if negb (match port_of a with
                | Some q => Z.eqb q (receiver_port f)
                | None => false
                end) then
         let start_packet := Packet_init message (Tup None None) 0 in
         if negb (bogon start_packet) then
           modify (with_state READY a (receiver_addr f) (seqno_value start_packet))
         else ret tt
       else ret tt
   | _ => ret tt
   end) ;;;
  f <- get ;;
  p <- (if pyaddr_eqb a (receiver_addr f) then
          base <- lift (get_attr (start_seqno_base f)) ;;
          ret (Packet_init message (sender_addr f) base)
        else if pyaddr_eqb a (sender_addr f) then
          base <- lift (get_attr (start_seqno_base f)) ;;
          ret (Packet_init message (receiver_addr f) base)
        else raise ValueError_unknown_source) ;;
  modify (fun f =>
    with_store (heap f ++ [p]) (in_queue f ++ [length (heap f)]) (out_queue f) f) ;;;
  emit HandlePacket ;;;
  modify (fun f =>
    let (iq, oq) := handle_packet tc (in_queue f, out_queue f) in
    with_store (heap f) iq oq f).

(** What one pass of the main loop observes: a datagram or the socket
    timeout, whether the tick interval has elapsed, whether the run's time
    limit is exceeded; or an operator interrupt. *)
Inductive Iter :=
| Iteration (recv : option (string * pyaddr)) (tick_due timed_out : bool)
| Interrupted.

(** [while sender.poll() is None: ...]; the list is what the loop observes
    while the sender runs, and the loop condition fails after its end. *)
Fixpoint main_loop (its : list Iter) : M unit :=
  match its with
  | [] =>
      modify (fun f => with_procs (recv_outfile f) false (receiver_running f) f)
  | Interrupted :: _ => raise KeyboardInterrupt
  | Iteration r tick_due timed_out :: rest =>
      (match r with
       | Some (m, a) => handle_receive m a
       | None => ret tt                          (* except socket.timeout: pass *)
       end) ;;;
      (if tick_due then _tick else ret tt) ;;;
      (if timed_out then raise Exception_timed_out else ret tt) ;;;
      main_loop rest
  end.

(** [except (KeyboardInterrupt, SystemExit): exit()]: [exit()] raises
    [SystemExit]. *)
Definition exit_on_interrupt (r : outcome unit) : outcome unit :=
  match r with
  | Raise KeyboardInterrupt | Raise SystemExit => Raise SystemExit
  | r => r
  end.

(** The [finally] block of [start]. *)
Definition cleanup : M unit :=
  f <- get ;;
  (if sender_running f then
     emit KillSender ;;;
     modify (fun f => with_procs (recv_outfile f) false (receiver_running f) f)
   else ret tt) ;;;
  emit KillReceiver ;;;
  modify (fun f => with_procs (recv_outfile f) (sender_running f) false f).

(** [Forwarder.start()] up to its [try]: reset the run, spawn both
    subprocesses. *)
Definition start_setup : M unit :=
  modify (fun f =>
    with_state NEW NoAddr (Tup (Some "127.0.0.1") (Some (receiver_port f)))
               (start_seqno_base f) f) ;;;
  modify (fun f =>
    with_procs (Some ("127.0.0.1." ++ fmt_d (port f))) true true f) ;;;
  f <- get ;;
  emit (SpawnReceiver (receiver_port f)) ;;;
  emit (SpawnSender (input_file f) (port f)).

(** [Forwarder.start()]. *)
Definition start (its : list Iter) : M unit :=
  start_setup ;;;
  r <- catch (main_loop its ;;; _tick) ;;
  let r := exit_on_interrupt r in
  cleanup ;;;
  lift r ;;;
  f <- get ;;
  match recv_outfile f with
  | Some o => emit (Result o)
  | None => raise AttributeError
  end.

End Ops.

End Forwarder.

(** ** Concrete instances for the examples *)

(** A stand-in for the checksum function: the body's length. *)
Definition sample_crc (s : string) : N := N.of_nat (String.length s).

(** The forwarding test case of [tests/BasicTest]: every arriving packet is
    moved to the out queue, ticks do nothing. *)
Definition forward_all : Forwarder.TestCase :=
  {| Forwarder.handle_packet := fun '(iq, oq) => ([], (oq ++ iq)%list);
     Forwarder.handle_tick := fun q => q;
     Forwarder.result := fun _ => true |}.

Definition sender_at : pyaddr := Tup (Some "127.0.0.1") (Some 40000).
Definition receiver_at : pyaddr := Tup (Some "127.0.0.1") (Some 33124).

(** ** Lemmas on the string built-ins *)

(** [Packet.__repr__]: ["%s|%s|...|%s" % (self.msg_type, self.seqno,
    self.checksum)]; an attribute never assigned raises [AttributeError],
    and ["%s"] of an int is its decimal form. *)
Definition seq_str (v : seqval) : string :=
  match v with
  | SeqInt n => fmt_d n
  | SeqStr s => s
  end.

Definition Packet___repr__ (self : Packet) : outcome string :=
  mt <-? get_attr (msg_type self) ;;
  sq <-? get_attr (seqno self) ;;
  ck <-? get_attr (checksum self) ;;
  Ok (mt ++ "|" ++ seq_str sq ++ "|...|" ++ ck).

(** The bytes [_send] is expected to put on the wire for a packet whose
    fields are set, once the baseline [b] is added back. *)
Definition sent_bytes (crc : string -> N) (b : Z) (p : Packet) : string :=
  match msg_type p, seqno p, data p with
  | Some t, Some (SeqInt n), Some d =>
      let body := spec_body t (n + b) d in body ++ generate_checksum crc body
  | _, _, _ => full_packet p
  end.

(** The [sendto] expected for heap location [l]. *)
Definition expected_send (crc : string -> N) (b : Z) (h : list Packet)
    (l : Forwarder.loc) : Forwarder.action :=
  match nth_error h l with
  | Some p => Forwarder.SendTo (sent_bytes crc b p) (address p)
  | None => Forwarder.KillSender
  end.

(** Location [l] of heap [h] holds a parsed, well-formed packet with a
    [(host, port)] destination. *)
Definition valid_at (crc : string -> N) (h : list Packet) (l : Forwarder.loc) : Prop :=
  exists p hh q, nth_error h l = Some p /\ reachable crc p /\ bogon p = false /\
                 address p = Tup (Some hh) (Some q).

(** What the forwarder has learned about the run. *)
Definition addr_kept (g g' : Forwarder.Fwd) : Prop :=
  Forwarder.test_state g' = Forwarder.test_state g /\
  Forwarder.sender_addr g' = Forwarder.sender_addr g /\
  Forwarder.receiver_addr g' = Forwarder.receiver_addr g /\
  Forwarder.start_seqno_base g' = Forwarder.start_seqno_base g.

(** A loop pass that neither timed out nor was interrupted. *)
Definition iter_ok (it : Forwarder.Iter) : bool :=
  match it with
  | Forwarder.Iteration _ _ timed_out => negb timed_out
  | Forwarder.Interrupted => false
  end.

(** [self.current_test = t]: from here on, [self.tests[self.current_test]]
    is the input file of [t]. *)
Definition set_current_test (input : string) (f : Forwarder.Fwd) : Forwarder.Fwd :=
  {| Forwarder.port := Forwarder.port f;
     Forwarder.receiver_port := Forwarder.receiver_port f;
     Forwarder.input_file := input;
     Forwarder.test_state := Forwarder.test_state f;
     Forwarder.sender_addr := Forwarder.sender_addr f;
     Forwarder.receiver_addr := Forwarder.receiver_addr f;
     Forwarder.start_seqno_base := Forwarder.start_seqno_base f;
     Forwarder.recv_outfile := Forwarder.recv_outfile f;
     Forwarder.heap := Forwarder.heap f;
     Forwarder.in_queue := Forwarder.in_queue f;
     Forwarder.out_queue := Forwarder.out_queue f;
     Forwarder.sender_running := Forwarder.sender_running f;
     Forwarder.receiver_running := Forwarder.receiver_running f;
     Forwarder.trace := Forwarder.trace f |}.

(** [Forwarder.execute_tests()]: [for t in self.tests: self.current_test = t;
    self.start()]. The list holds the registered test cases in the order
    the dictionary yields them (Python 2 does not fix that order), each with
    its input file and what the main loop observes during its run. *)
Fixpoint execute_tests (crc : string -> N)
    (tests : list (Forwarder.TestCase * string * list Forwarder.Iter)) :
    Forwarder.M unit :=
  match tests with
  | [] => Forwarder.ret tt
  | (t, input, its) :: rest =>
      Forwarder.bind (Forwarder.modify (set_current_test input)) (fun _ =>
      Forwarder.bind (Forwarder.start crc t its) (fun _ =>
      execute_tests crc rest))
  end.

(** The sender processes started so far: input file and port of each. *)
Fixpoint sender_spawns (tr : list Forwarder.action) : list (string * Z) :=
  match tr with
  | [] => []
  | Forwarder.SpawnSender i p :: rest => (i, p) :: sender_spawns rest
  | _ :: rest => sender_spawns rest
  end.

(** A step that starts no sender and keeps the port. *)
Definition no_spawn (g g' : Forwarder.Fwd) : Prop :=
  Forwarder.port g' = Forwarder.port g /\
  sender_spawns (Forwarder.trace g') = sender_spawns (Forwarder.trace g).

(** A test case that sends every queued packet twice per tick. *)
Definition duplicate_on_tick : Forwarder.TestCase :=
  {| Forwarder.handle_packet := fun '(iq, oq) => ([], (oq ++ iq)%list);
     Forwarder.handle_tick := fun '(iq, oq) => (iq, (oq ++ oq)%list);
     Forwarder.result := fun _ => true |}.

(** [kept R m]: whatever [m] does, ending normally or not, its final state is
    related to its initial one by [R]. *)
Definition kept (R : Forwarder.Fwd -> Forwarder.Fwd -> Prop) {A}
    (m : Forwarder.M A) : Prop :=
  forall g, R g (fst (m g)).

(** Which parts of the state a step leaves alone: the subprocess flags, the
    receiver's output file and the port. *)
Definition procs_kept (g g' : Forwarder.Fwd) : Prop :=
  Forwarder.sender_running g' = Forwarder.sender_running g /\
  Forwarder.receiver_running g' = Forwarder.receiver_running g /\
  Forwarder.recv_outfile g' = Forwarder.recv_outfile g /\
  Forwarder.port g' = Forwarder.port g.

(** ... and, in addition, the step puts only datagrams on the wire. *)
Definition sends_only (g g' : Forwarder.Fwd) : Prop :=
  procs_kept g g' /\
  exists xs, Forwarder.trace g' = (Forwarder.trace g ++ xs)%list /\
             Forall (fun a => Forwarder.is_send a = true) xs.

(** Characters that are neither the delimiter nor whitespace. *)
Definition plain (c : ascii) : bool := negb (Ascii.eqb c bar) && negb (is_space c).

Ltac break_match_hyp :=
  match goal with
  | H : context [match ?x with _ => _ end] |- _ => destruct x eqn:?
  end.

Lemma str_append_assoc (a b c : string) : (a ++ b) ++ c = a ++ (b ++ c).
Proof. induction a as [|x a IH]; simpl; [reflexivity | now rewrite IH]. Qed.

Lemma str_split_cons sep s : exists x r, str_split sep s = x :: r.
Proof.
  destruct s as [|c s]; simpl; [eauto|].
  destruct (Ascii.eqb c sep); [eauto|].
  destruct (str_split sep s); eauto.
Qed.

Lemma str_split_app sep a b :
  str_split sep (a ++ String sep b) = (str_split sep a ++ str_split sep b)%list.
Proof.
  induction a as [|c a IH]; simpl.
  - now rewrite Ascii.eqb_refl.
  - rewrite IH. destruct (Ascii.eqb c sep); [reflexivity|].
    destruct (str_split_cons sep a) as (x & r & ->). reflexivity.
Qed.

Lemma str_split_single sep s :
  str_forall (fun c => negb (Ascii.eqb c sep)) s = true -> str_split sep s = [s].
Proof.
  induction s as [|c s IH]; simpl; [reflexivity|].
  intros H. apply andb_prop in H as [Hc Hs].
  destruct (Ascii.eqb c sep); [discriminate|]. now rewrite IH.
Qed.

Lemma str_join_split sep s : str_join sep (str_split sep s) = s.
Proof.
  induction s as [|c s IH]; simpl; [reflexivity|].
  destruct (str_split_cons sep s) as (x & r & E). rewrite E in *.
  destruct (Ascii.eqb c sep) eqn:Ec.
  - apply Ascii.eqb_eq in Ec. subst c.
    destruct r as [|y r]; cbn [str_join append] in IH |- *; now rewrite IH.
  - destruct r as [|y r]; cbn [str_join append] in IH |- *; now rewrite IH.
Qed.

Lemma str_forall_impl (P Q : ascii -> bool) s :
  (forall c, P c = true -> Q c = true) ->
  str_forall P s = true -> str_forall Q s = true.
Proof.
  intros HPQ. induction s as [|c s IH]; simpl; [reflexivity|].
  intros H. apply andb_prop in H as [Hc Hs]. now rewrite HPQ, IH.
Qed.

Lemma str_forall_list P s :
  str_forall P s = forallb P (list_ascii_of_string s).
Proof. induction s as [|c s IH]; simpl; congruence. Qed.

Lemma drop_space_id l :
  forallb (fun c => negb (is_space c)) l = true -> drop_space l = l.
Proof.
  destruct l as [|c l]; simpl; [reflexivity|].
  intros H. apply andb_prop in H as [Hc _].
  now destruct (is_space c).
Qed.

Lemma strip_id s :
  str_forall (fun c => negb (is_space c)) s = true -> strip s = s.
Proof.
  intros H. rewrite str_forall_list in H. unfold strip.
  rewrite (drop_space_id (list_ascii_of_string s)) by exact H.
  rewrite drop_space_id.
  - now rewrite rev_involutive, string_of_list_ascii_of_string.
  - rewrite forallb_forall in *. intros c Hc. apply H, in_rev, Hc.
Qed.


Lemma uint_str_plain u : str_forall plain (uint_str u) = true.
Proof. induction u; simpl; rewrite ?IHu; reflexivity. Qed.

Lemma fmt_d_plain n : str_forall plain (fmt_d n) = true.
Proof. unfold fmt_d. destruct (Z.to_int n); simpl; apply uint_str_plain. Qed.

Lemma plain_no_bar s :
  str_forall plain s = true -> str_forall (fun c => negb (Ascii.eqb c bar)) s = true.
Proof.
  apply str_forall_impl. intros c H. now apply andb_prop in H as [H _].
Qed.

Lemma plain_no_space s :
  str_forall plain s = true -> str_forall (fun c => negb (is_space c)) s = true.
Proof.
  apply str_forall_impl. intros c H. now apply andb_prop in H as [_ H].
Qed.

Lemma str_uint_uint_str u : str_uint (uint_str u) = Some u.
Proof. induction u; simpl; rewrite ?IHu; reflexivity. Qed.

Lemma lstrip_id s :
  str_forall (fun c => negb (is_space c)) s = true -> lstrip s = s.
Proof.
  intros H. rewrite str_forall_list in H. unfold lstrip.
  rewrite (drop_space_id (list_ascii_of_string s)) by exact H.
  apply string_of_list_ascii_of_string.
Qed.

Lemma py_int_uint u :
  u <> Decimal.Nil -> py_int (uint_str u) = Some (Z.of_int (Decimal.Pos u)).
Proof.
  intros Hu. unfold py_int.
  rewrite strip_id by apply plain_no_space, uint_str_plain.
  destruct u; [contradiction| ..];
    simpl; rewrite str_uint_uint_str; reflexivity.
Qed.

Lemma py_int_neg_uint u :
  u <> Decimal.Nil -> py_int (String "-" (uint_str u)) = Some (Z.of_int (Decimal.Neg u)).
Proof.
  intros Hu. unfold py_int.
  rewrite strip_id
    by (apply plain_no_space; simpl; apply uint_str_plain).
  cbn [Ascii.eqb Bool.eqb]. rewrite lstrip_id by apply plain_no_space, uint_str_plain.
  destruct u; [contradiction| ..];
    simpl; rewrite str_uint_uint_str; reflexivity.
Qed.

(** [int("%d" % n) == n]. *)
Lemma py_int_fmt_d n : py_int (fmt_d n) = Some n.
Proof.
  rewrite <- (DecimalZ.of_to n) at 2. unfold fmt_d.
  destruct n as [|p|p]; simpl.
  - reflexivity.
  - apply py_int_uint, DecimalPos.Unsigned.to_uint_nonnil.
  - apply py_int_neg_uint, DecimalPos.Unsigned.to_uint_nonnil.
Qed.

Lemma nonempty_len s : (0 <? Z.of_nat (String.length s)) = negb (String.eqb s "").
Proof. destruct s; simpl; [reflexivity|]. apply Z.ltb_lt. lia. Qed.

Lemma replace_nth_same {A} (l : list A) n x :
  nth_error l n = Some x -> Forwarder.replace_nth n x l = l.
Proof.
  revert n. induction l as [|y l IH]; intros [|n] H; simpl in *;
    try discriminate; [now inversion H | now rewrite IH].
Qed.

(** ** Lemmas on [Packet] *)

(** [Packet.__init__] on bytes with at least three fields that validate. *)
Lemma Packet_init_fields raw addr b t s mid ck n c :
  str_split bar raw = (t :: s :: mid ++ [ck])%list ->
  incoming_type t = true -> py_int s = Some n -> py_int ck = Some c ->
  Packet_init raw addr b =
  {| full_packet := raw; address := addr; start_seqno_base := b;
     msg_type := Some t; seqno := Some (SeqInt (n - b)); checksum := Some ck;
     data := Some (str_join bar mid); bogon := false |}.
Proof.
  intros Hs Ht Hn Hc.
  assert (Hl : last (t :: s :: mid ++ [ck])%list "" = ck).
  { rewrite !app_comm_cons. apply last_last. }
  assert (Hm : firstn (length (t :: s :: mid ++ [ck]) - 3)%nat
                 (skipn 2 (t :: s :: mid ++ [ck])%list) = mid).
  { replace (length (t :: s :: mid ++ [ck]) - 3)%nat with (length mid)
      by (simpl; rewrite length_app; simpl; lia).
    simpl skipn. rewrite firstn_app, firstn_all, Nat.sub_diag.
    apply app_nil_r. }
  unfold Packet_init. rewrite Hs. cbv zeta. rewrite Hl, Hm, Hn, Ht, Hc.
  reflexivity.
Qed.

Lemma Packet_init_ok raw addr b :
  bogon (Packet_init raw addr b) = false ->
  exists t n d ck, msg_type (Packet_init raw addr b) = Some t /\
    seqno (Packet_init raw addr b) = Some (SeqInt n) /\
    data (Packet_init raw addr b) = Some d /\
    checksum (Packet_init raw addr b) = Some ck /\ incoming_type t = true.
Proof.
  unfold Packet_init. cbv zeta.
  destruct (str_split bar raw) as [|t [|s r]]; try discriminate.
  destruct (py_int s); [|discriminate].
  destruct (incoming_type t) eqn:Ht; [|discriminate].
  destruct (py_int _); [|discriminate].
  intros _. simpl. eauto 10.
Qed.

Lemma update_packet_bogon crc p mt sq d fp uc :
  bogon p = true -> update_packet crc p mt sq d fp uc = Ok p.
Proof. intros H. unfold update_packet. now rewrite H. Qed.

Lemma update_packet_keeps_bogon crc p mt sq d fp uc p' :
  update_packet crc p mt sq d fp uc = Ok p' -> bogon p' = bogon p.
Proof.
  unfold update_packet, bind_outcome, get_attr.
  destruct (bogon p) eqn:Hb; [congruence|].
  intros H. repeat break_match_hyp; try discriminate;
    inversion H; subst; reflexivity.
Qed.

Lemma update_packet_ok crc p mt sq d fp uc p' :
  bogon p = false -> update_packet crc p mt sq d fp uc = Ok p' ->
  exists t n dd ck, msg_type p' = Some t /\ seqno p' = Some (SeqInt n) /\
    data p' = Some dd /\ checksum p' = Some ck.
Proof.
  unfold update_packet, bind_outcome, get_attr. intros Hb. rewrite Hb.
  intros H. repeat break_match_hyp; try discriminate;
    inversion H; subst; simpl; eauto 10.
Qed.

(** A packet that is not bogon has all its fields, with an integer
    [seqno]. *)
Lemma reachable_fields crc p :
  reachable crc p -> bogon p = false ->
  exists t n d ck, msg_type p = Some t /\ seqno p = Some (SeqInt n) /\
    data p = Some d /\ checksum p = Some ck.
Proof.
  induction 1 as [raw addr base|p mt sq d fp uc p' Hr IH Hu]; intros Hb.
  - destruct (Packet_init_ok raw addr base Hb) as (t & n & d & ck & ? & ? & ? & ? & _).
    eauto 10.
  - rewrite (update_packet_keeps_bogon _ _ _ _ _ _ _ _ Hu) in Hb.
    eapply update_packet_ok; eauto.
Qed.

(** [update_packet] on a packet with all its fields. *)
Lemma update_packet_eq crc p mt sq d fp (uc : bool) t0 n0 d0 ck0 :
  bogon p = false -> msg_type p = Some t0 -> seqno p = Some (SeqInt n0) ->
  data p = Some d0 -> checksum p = Some ck0 ->
  let t := override mt t0 in
  let n := override sq n0 in
  let dd := override d d0 in
  let body := spec_body t n dd in
  let ck := if uc then generate_checksum crc body else ck0 in
  update_packet crc p mt sq d fp uc =
  Ok {| full_packet :=
          match fp with
          | Some x => if String.eqb x "" then body ++ ck else x
          | None => body ++ ck
          end;
        address := address p; start_seqno_base := start_seqno_base p;
        msg_type := Some t; seqno := Some (SeqInt n); checksum := Some ck;
        data := Some dd; bogon := false |}.
Proof.
  intros Hb Ht Hn Hd Hc. unfold update_packet, spec_body.
  rewrite Hb, Ht, Hn, Hd, Hc.
  destruct mt, sq, d, uc, fp; cbn [bind_outcome get_attr override];
    rewrite ?nonempty_len;
    repeat match goal with
           | |- context [String.eqb ?a ""] => destruct (String.eqb a "")
           end;
    reflexivity.
Qed.

Lemma incoming_no_bar t :
  incoming_type t = true -> str_forall (fun c => negb (Ascii.eqb c bar)) t = true.
Proof.
  unfold incoming_type, incoming_types. simpl.
  destruct (String.eqb_spec t "start"); [subst; reflexivity|].
  destruct (String.eqb_spec t "data"); [subst; reflexivity|].
  destruct (String.eqb_spec t "ack"); [subst; reflexivity|].
  destruct (String.eqb_spec t "end"); [subst; reflexivity|].
  discriminate.
Qed.

(** Parsing a serialized body followed by a plain integer token. *)
Lemma Packet_init_serialized t n d ck c addr :
  incoming_type t = true -> str_forall plain ck = true -> py_int ck = Some c ->
  Packet_init (spec_body t n d ++ ck) addr 0 =
  {| full_packet := spec_body t n d ++ ck; address := addr; start_seqno_base := 0;
     msg_type := Some t; seqno := Some (SeqInt n); checksum := Some ck;
     data := Some d; bogon := false |}.
Proof.
  intros Ht Hck Hc.
  assert (Hn : py_int (fmt_d n) = Some n) by apply py_int_fmt_d.
  pose proof (str_split_single _ _ (incoming_no_bar t Ht)) as St.
  pose proof (str_split_single _ _ (plain_no_bar _ (fmt_d_plain n))) as Sn.
  pose proof (str_split_single _ _ (plain_no_bar _ Hck)) as Sc.
  unfold spec_body. destruct (String.eqb_spec d "") as [->|Hd].
  - replace ((t ++ "|" ++ fmt_d n ++ "|") ++ ck)
      with (t ++ String bar (fmt_d n ++ String bar ck))
      by (rewrite !str_append_assoc; reflexivity).
    rewrite (Packet_init_fields _ addr 0 t (fmt_d n) [] ck n c); auto.
    + now rewrite Z.sub_0_r.
    + rewrite !str_split_app, St, Sn, Sc. reflexivity.
  - replace ((t ++ "|" ++ fmt_d n ++ "|" ++ d ++ "|") ++ ck)
      with (t ++ String bar (fmt_d n ++ String bar (d ++ String bar ck)))
      by (rewrite !str_append_assoc; reflexivity).
    rewrite (Packet_init_fields _ addr 0 t (fmt_d n) (str_split bar d) ck n c); auto.
    + now rewrite Z.sub_0_r, str_join_split.
    + rewrite !str_split_app, St, Sn, Sc. reflexivity.
Qed.

(** Unfold the monad's combinators. *)
Ltac unfold_M :=
  cbv beta iota zeta delta [Forwarder.bind Forwarder.deref Forwarder.get
    Forwarder.lift Forwarder.store Forwarder.modify Forwarder.sendto
    Forwarder.emit Forwarder.raise Forwarder.ret Forwarder.catch get_attr].
Ltac unfold_M_in H :=
  cbv beta iota zeta delta [Forwarder.bind Forwarder.deref Forwarder.get
    Forwarder.lift Forwarder.store Forwarder.modify Forwarder.sendto
    Forwarder.emit Forwarder.raise Forwarder.ret Forwarder.catch get_attr] in H.

Lemma send_bogon crc f l f' p :
  nth_error (Forwarder.heap f) l = Some p -> bogon p = true ->
  Forwarder._send crc l f = (f', Ok tt) ->
  Forwarder.heap f' = Forwarder.heap f /\
  Forwarder.trace f' = (Forwarder.trace f ++ [Forwarder.SendTo (full_packet p) (address p)])%list.
Proof.
  intros Hl Hb H. unfold Forwarder._send in H. unfold_M_in H.
  rewrite Hl in H. cbv beta iota in H.
  repeat (break_match_hyp; cbv beta iota in H); try discriminate.
  match goal with
  | E : update_packet _ _ _ _ _ _ _ = _ |- _ =>
      rewrite update_packet_bogon in E by exact Hb; injection E as <-
  end.
  inversion H; subst; cbn. split; [now apply replace_nth_same|].
  match goal with E : address p = _ |- _ => now rewrite E end.
Qed.

(** * The claims *)

(** ** C1: parsing a datagram whose fields validate *)

(** C1: A datagram that splits on '|' into at least three fields, whose
    first field is start, data, ack or end and whose second and last fields
    parse as integers, parses with baseline [b] to a packet that is not
    bogon, with the first field as type, the second field's value minus [b]
    as sequence number, the last field as checksum, and the fields strictly
    between the second and the last rejoined with '|' as payload. *)
Theorem parse_valid_datagram raw addr b t s mid ck n c :
  str_split bar raw = (t :: s :: mid ++ [ck])%list ->
  incoming_type t = true -> py_int s = Some n -> py_int ck = Some c ->
  Packet_init raw addr b =
  {| full_packet := raw; address := addr; start_seqno_base := b;
     msg_type := Some t; seqno := Some (SeqInt (n - b)); checksum := Some ck;
     data := Some (str_join bar mid); bogon := false |}.
Proof. apply Packet_init_fields. Qed.

(** Scenario A: [data|5|hello|123] with baseline 5; and a sequence field
    with a space after its sign, which [int()] accepts. *)
Lemma parse_valid_datagram_witness :
  Packet_init "data|5|hello|123" NoAddr 5 =
  {| full_packet := "data|5|hello|123"; address := NoAddr; start_seqno_base := 5;
     msg_type := Some "data"; seqno := Some (SeqInt 0); checksum := Some "123";
     data := Some "hello"; bogon := false |} /\
  Packet_init "data|- 5|hello|123" NoAddr 2 =
  {| full_packet := "data|- 5|hello|123"; address := NoAddr; start_seqno_base := 2;
     msg_type := Some "data"; seqno := Some (SeqInt (-7)); checksum := Some "123";
     data := Some "hello"; bogon := false |}.
Proof.
  split.
  - exact (parse_valid_datagram "data|5|hello|123" NoAddr 5 "data" "5" ["hello"] "123"
             5 123 eq_refl eq_refl eq_refl eq_refl).
  - exact (parse_valid_datagram "data|- 5|hello|123" NoAddr 2 "data" "- 5" ["hello"] "123"
             (-5) 123 eq_refl eq_refl eq_refl eq_refl).
Defined.

(** ** C2: serialize then parse *)

(** C2: For every packet that is not bogon and whose type is one of the
    incoming types, [update_packet] with no overrides succeeds, and parsing
    the bytes it produces (baseline 0) gives a packet that is not bogon and
    has the same type, sequence number and payload; payloads holding '|'
    included. *)
Theorem serialize_parse_roundtrip crc p addr t :
  reachable crc p -> bogon p = false -> msg_type p = Some t -> incoming_type t = true ->
  exists p', update_packet crc p None None None None true = Ok p' /\
    bogon (Packet_init (full_packet p') addr 0) = false /\
    msg_type (Packet_init (full_packet p') addr 0) = msg_type p /\
    seqno (Packet_init (full_packet p') addr 0) = seqno p /\
    data (Packet_init (full_packet p') addr 0) = data p.
Proof.
  intros Hr Hb Ht Hin.
  destruct (reachable_fields crc p Hr Hb) as (t0 & n & d & ck & Ht0 & Hn & Hd & Hc).
  rewrite Ht in Ht0. injection Ht0 as <-.
  eexists. split; [exact (update_packet_eq crc p None None None None true t n d ck
                            Hb Ht Hn Hd Hc)|].
  cbn [full_packet override].
  rewrite (Packet_init_serialized t n d _ (Z.of_N (crc (spec_body t n d))) addr)
    by first [exact Hin | apply fmt_d_plain | apply py_int_fmt_d].
  cbn. rewrite Ht, Hn, Hd. auto.
Qed.

(** A payload holding the delimiter, [he|llo], survives parse, update and
    serialize. *)
Lemma serialize_parse_roundtrip_witness :
  let p := Packet_init "data|5|he|llo|123" NoAddr 5 in
  exists p', update_packet sample_crc p None None None None true = Ok p' /\
    bogon (Packet_init (full_packet p') NoAddr 0) = false /\
    msg_type (Packet_init (full_packet p') NoAddr 0) = msg_type p /\
    seqno (Packet_init (full_packet p') NoAddr 0) = seqno p /\
    data (Packet_init (full_packet p') NoAddr 0) = data p.
Proof.
  apply (serialize_parse_roundtrip sample_crc _ NoAddr "data");
    [constructor | reflexivity | reflexivity | reflexivity].
Defined.

(** ** C3: malformed datagrams are bogon *)

(** C3: Parsing marks the packet bogon exactly when the datagram has a
    structural error: fewer than two fields, a sequence field that is not an
    integer, a type field that is not one of start, data, ack, end (so
    [end-ack] is bogon), or a checksum field that is not an integer. In
    every case [Packet_init] returns a packet, holding the raw bytes and
    the destination: no failure escapes it. *)
Theorem parse_invalid_is_bogon raw addr b :
  (bogon (Packet_init raw addr b) = true <->
   (length (str_split bar raw) < 2)%nat \/
   py_int (nth 1 (str_split bar raw) "") = None \/
   incoming_type (hd "" (str_split bar raw)) = false \/
   py_int (last (str_split bar raw) "") = None) /\
  full_packet (Packet_init raw addr b) = raw /\
  address (Packet_init raw addr b) = addr.
Proof.
  unfold Packet_init. cbv zeta.
  destruct (str_split bar raw) as [|t [|s r]].
  1, 2: cbn; split; [split; [intros _; left; lia | reflexivity] | split; reflexivity].
  cbn [nth hd length].
  destruct (py_int s) eqn:Hs;
    [destruct (incoming_type t) eqn:Ht; [destruct (py_int (last _ _)) eqn:Hc|]|];
    cbn [bogon full_packet address];
    (split; [|split; reflexivity]);
    split; intros H; try discriminate; try reflexivity;
    try (right; right; right; reflexivity);
    try (right; right; left; reflexivity);
    try (right; left; reflexivity);
    lia || (destruct H as [H|[H|[H|H]]]; try lia; discriminate).
Qed.

Lemma parse_invalid_is_bogon_witness :
  bogon (Packet_init "data|x|5" NoAddr 0) = true /\
  bogon (Packet_init "end-ack|3|1" NoAddr 0) = true.
Proof.
  split; apply (parse_invalid_is_bogon _ NoAddr 0); right;
    [left | right; left]; reflexivity.
Defined.

(** ** C4: bogon packets *)

(** C4, as stated, says a bogon packet has no other field populated. Refuted:
    [data|5|hello|abc] fails on its checksum after type, sequence number,
    payload and checksum were assigned. *)
Lemma bogon_fields_unpopulated_fails :
  ~ (forall raw addr b,
       bogon (Packet_init raw addr b) = true ->
       msg_type (Packet_init raw addr b) = None /\
       seqno (Packet_init raw addr b) = None /\
       checksum (Packet_init raw addr b) = None /\
       data (Packet_init raw addr b) = None).
Proof.
  intros H. destruct (H "data|5|hello|abc" NoAddr 0 eq_refl) as [Hm _].
  discriminate.
Qed.

(** C4, amended: A bogon packet keeps its raw bytes and destination;
    [update_packet] leaves it unchanged whatever its arguments; and when the
    send path completes on it, it transmits the raw bytes unmodified and
    leaves the packet store as it was. *)
Theorem bogon_packet_untouched crc raw addr b mt sq d fp uc :
  bogon (Packet_init raw addr b) = true ->
  full_packet (Packet_init raw addr b) = raw /\
  address (Packet_init raw addr b) = addr /\
  update_packet crc (Packet_init raw addr b) mt sq d fp uc = Ok (Packet_init raw addr b) /\
  (forall f l f',
     nth_error (Forwarder.heap f) l = Some (Packet_init raw addr b) ->
     Forwarder._send crc l f = (f', Ok tt) ->
     Forwarder.heap f' = Forwarder.heap f /\
     Forwarder.trace f' = (Forwarder.trace f ++ [Forwarder.SendTo raw addr])%list).
Proof.
  intros Hb.
  assert (Hf : full_packet (Packet_init raw addr b) = raw).
  { unfold Packet_init. cbv zeta.
    destruct (str_split bar raw) as [|t [|s r]]; try reflexivity.
    destruct (py_int s); [|reflexivity].
    destruct (incoming_type t); [|reflexivity].
    destruct (py_int _); reflexivity. }
  assert (Ha : address (Packet_init raw addr b) = addr).
  { unfold Packet_init. cbv zeta.
    destruct (str_split bar raw) as [|t [|s r]]; try reflexivity.
    destruct (py_int s); [|reflexivity].
    destruct (incoming_type t); [|reflexivity].
    destruct (py_int _); reflexivity. }
  split; [exact Hf|]. split; [exact Ha|].
  split; [now apply update_packet_bogon|].
  intros f l f' Hl Hs.
  replace (Forwarder.SendTo raw addr)
    with (Forwarder.SendTo (full_packet (Packet_init raw addr b))
                           (address (Packet_init raw addr b)))
    by now rewrite Hf, Ha.
  eapply send_bogon; eauto.
Qed.

Lemma bogon_packet_untouched_witness :
  let p := Packet_init "end-ack|7|1" receiver_at 0 in
  full_packet p = "end-ack|7|1" /\ address p = receiver_at /\
  update_packet sample_crc p None (Some 12) None None true = Ok p /\
  (forall f l f',
     nth_error (Forwarder.heap f) l = Some p ->
     Forwarder._send sample_crc l f = (f', Ok tt) ->
     Forwarder.heap f' = Forwarder.heap f /\
     Forwarder.trace f' =
       (Forwarder.trace f ++ [Forwarder.SendTo "end-ack|7|1" receiver_at])%list).
Proof. apply bogon_packet_untouched. reflexivity. Defined.

(** ** C5: [update_packet] on a packet that is not bogon *)

(** C5, as stated, says the raw bytes are always body and checksum. Refuted
    by the [full_packet] argument, which replaces them when non-empty. *)
Lemma update_packet_full_packet_override :
  ~ (forall crc p mt sq d fp uc q t n dd ck,
       reachable crc p -> bogon p = false ->
       update_packet crc p mt sq d fp uc = Ok q ->
       msg_type q = Some t -> seqno q = Some (SeqInt n) ->
       data q = Some dd -> checksum q = Some ck ->
       full_packet q = spec_body t n dd ++ ck).
Proof.
  intros H.
  assert (E : update_packet sample_crc (Packet_init "data|5|hello|123" NoAddr 0)
                None None None (Some "junk") true =
              Ok {| full_packet := "junk"; address := NoAddr; start_seqno_base := 0;
                    msg_type := Some "data"; seqno := Some (SeqInt 5);
                    checksum := Some "13"; data := Some "hello"; bogon := false |})
    by reflexivity.
  specialize (H sample_crc (Packet_init "data|5|hello|123" NoAddr 0) None None None
                (Some "junk") true _ "data" 5 "hello" "13" (reach_init _ _ _ _) eq_refl E
                eq_refl eq_refl eq_refl eq_refl).
  vm_compute in H. discriminate.
Qed.

(** C5, amended: On a packet that is not bogon, [update_packet] takes
    each of type, sequence number and payload from its argument when given
    and keeps the current value otherwise; the body is [type|seqno|payload|]
    for a non-empty payload and [type|seqno|] otherwise; the checksum is the
    checksum function of the body when [update_checksum] holds and the
    current token otherwise; the raw bytes are a non-empty [full_packet]
    argument when one is given, and body followed by checksum otherwise. *)
Theorem update_packet_serializes crc p mt sq d fp (uc : bool) :
  reachable crc p -> bogon p = false ->
  exists t0 n0 d0 ck0,
    msg_type p = Some t0 /\ seqno p = Some (SeqInt n0) /\
    data p = Some d0 /\ checksum p = Some ck0 /\
    let t := override mt t0 in
    let n := override sq n0 in
    let dd := override d d0 in
    let body := spec_body t n dd in
    let ck := if uc then generate_checksum crc body else ck0 in
    update_packet crc p mt sq d fp uc =
    Ok {| full_packet :=
            match fp with
            | Some x => if String.eqb x "" then body ++ ck else x
            | None => body ++ ck
            end;
          address := address p; start_seqno_base := start_seqno_base p;
          msg_type := Some t; seqno := Some (SeqInt n); checksum := Some ck;
          data := Some dd; bogon := false |}.
Proof.
  intros Hr Hb.
  destruct (reachable_fields crc p Hr Hb) as (t0 & n0 & d0 & ck0 & Ht & Hn & Hd & Hc).
  exists t0, n0, d0, ck0. repeat split; try assumption.
  now apply update_packet_eq.
Qed.

Lemma update_packet_serializes_witness :
  exists t0 n0 d0 ck0,
    msg_type (Packet_init "data|5|hello|123" NoAddr 0) = Some t0 /\
    seqno (Packet_init "data|5|hello|123" NoAddr 0) = Some (SeqInt n0) /\
    data (Packet_init "data|5|hello|123" NoAddr 0) = Some d0 /\
    checksum (Packet_init "data|5|hello|123" NoAddr 0) = Some ck0 /\
    let t := override None t0 in
    let n := override None n0 in
    let dd := override (Some "") d0 in
    let body := spec_body t n dd in
    let ck := if false then generate_checksum sample_crc body else ck0 in
    update_packet sample_crc (Packet_init "data|5|hello|123" NoAddr 0)
      None None (Some "") None false =
    Ok {| full_packet := body ++ ck;
          address := NoAddr; start_seqno_base := 0;
          msg_type := Some t; seqno := Some (SeqInt n); checksum := Some ck;
          data := Some dd; bogon := false |}.
Proof.
  exact (update_packet_serializes sample_crc (Packet_init "data|5|hello|123" NoAddr 0)
           None None (Some "") None false (reach_init _ _ _ _) eq_refl).
Defined.

(** ** C6: the tick *)

(** C6 (code defect): the packet comment says a bogon packet "is passed
    along like every other packet", but [_send] reads [packet.seqno] before
    [update_packet]'s bogon guard. A run whose sender sends [start|7|hi|1]
    and then [bogus], under the forwarding test case: the second tick raises
    [AttributeError] in [_send], [bogus] is never sent, the out queue is not
    cleared, and the run aborts. *)
Theorem tick_aborts_on_bogon :
  let r := Forwarder.start sample_crc forward_all
             [Forwarder.Iteration (Some ("start|7|hi|1", sender_at)) true false;
              Forwarder.Iteration (Some ("bogus", sender_at)) true false]
             (Forwarder.Forwarder_init 33123 "README") in
  snd r = Raise AttributeError /\
  Forwarder.out_queue (fst r) = [1%nat] /\
  Forwarder.trace (fst r) =
    [Forwarder.SpawnReceiver 33124; Forwarder.SpawnSender "README" 33123;
     Forwarder.HandlePacket; Forwarder.HandleTick;
     Forwarder.SendTo "start|7|hi|11" receiver_at;
     Forwarder.HandlePacket; Forwarder.HandleTick;
     Forwarder.KillSender; Forwarder.KillReceiver].
Proof. vm_compute. repeat split. Qed.


(** The same packet object queued twice (a duplicating test case) is
    re-absolutized twice: it goes out as sequence number 7, then 14. *)
Lemma tick_aliasing_double_shift :
  Forwarder.trace (fst (Forwarder.start sample_crc duplicate_on_tick
      [Forwarder.Iteration (Some ("start|7|hi|1", sender_at)) true false]
      (Forwarder.Forwarder_init 33123 "README"))) =
  [Forwarder.SpawnReceiver 33124; Forwarder.SpawnSender "README" 33123;
   Forwarder.HandlePacket; Forwarder.HandleTick;
   Forwarder.SendTo "start|7|hi|11" receiver_at;
   Forwarder.SendTo "start|14|hi|12" receiver_at;
   Forwarder.HandleTick; Forwarder.KillReceiver;
   Forwarder.Result "127.0.0.1.33123"].
Proof. vm_compute. reflexivity. Qed.

(** ** C7: learning the sender *)

Lemma Packet_init_seqno raw addr b :
  bogon (Packet_init raw addr b) = false ->
  exists t s r n, str_split bar raw = (t :: s :: r)%list /\ py_int s = Some n /\
    seqno (Packet_init raw addr b) = Some (SeqInt (n - b)).
Proof.
  unfold Packet_init. cbv zeta.
  destruct (str_split bar raw) as [|t [|s r]]; try discriminate.
  destruct (py_int s) as [n|] eqn:Hn; [|discriminate].
  intros _. exists t, s, r, n. split; [reflexivity | split; [exact Hn |]].
  destruct (incoming_type t); [destruct (py_int (last _ _))|]; reflexivity.
Qed.

Ltac hr_cases :=
  repeat (cbv beta iota delta [negb Forwarder.with_state Forwarder.with_store];
          match goal with
          | |- context [match ?c with true => _ | false => _ end] => destruct c
          | |- context [match Forwarder.start_seqno_base ?g with _ => _ end] =>
              destruct (Forwarder.start_seqno_base g) eqn:?
          | |- context [Forwarder.handle_packet ?tc ?x] =>
              destruct (Forwarder.handle_packet tc x)
          end).

(** C7: in state NEW, a datagram from a port other than the receiver's
    that parses (baseline 0) sets the baseline to the datagram's absolute
    sequence number, learns the sender's address and moves to READY; a
    datagram from the receiver's port, or one that does not parse, changes
    none of the three. *)
Theorem handle_receive_learns_sender tc f message h q :
  Forwarder.test_state f = Forwarder.NEW ->
  let f' := fst (Forwarder.handle_receive tc message (Tup (Some h) (Some q)) f) in
  (q <> Forwarder.receiver_port f ->
   bogon (Packet_init message (Tup None None) 0) = false ->
   Forwarder.test_state f' = Forwarder.READY /\
   Forwarder.sender_addr f' = Tup (Some h) (Some q) /\
   exists n, py_int (nth 1 (str_split bar message) "") = Some n /\
             Forwarder.start_seqno_base f' = Some n) /\
  (q = Forwarder.receiver_port f \/
   bogon (Packet_init message (Tup None None) 0) = true ->
   Forwarder.test_state f' = Forwarder.test_state f /\
   Forwarder.sender_addr f' = Forwarder.sender_addr f /\
   Forwarder.start_seqno_base f' = Forwarder.start_seqno_base f).
Proof.
  intros Hs f'. subst f'.
  unfold Forwarder.handle_receive. unfold_M. rewrite Hs. cbn [Forwarder.port_of].
  split.
  - intros Hq Hb. apply Z.eqb_neq in Hq. rewrite Hq, Hb. cbv beta iota.
    destruct (Packet_init_seqno _ _ _ Hb) as (t & s & r & n & Hsp & Hn & Hsq).
    assert (Hv : Forwarder.seqno_value (Packet_init message (Tup None None) 0) = Some n)
      by (unfold Forwarder.seqno_value; rewrite Hsq; f_equal; lia).
    rewrite Hv.
    hr_cases;
      cbn; (split; [reflexivity | split; [reflexivity|]]);
      exists n; rewrite Hsp; auto.
  - intros [Hq | Hb]; [subst q; rewrite Z.eqb_refl | rewrite Hb];
      hr_cases; cbn; repeat split; auto.
Qed.

Lemma handle_receive_learns_sender_witness :
  let f := fst (Forwarder.start_setup (Forwarder.Forwarder_init 33123 "README")) in
  let f' := fst (Forwarder.handle_receive forward_all "start|7|hi|1"
                   (Tup (Some "127.0.0.1") (Some 40000)) f) in
  let f'' := fst (Forwarder.handle_receive forward_all "start|- 5|1"
                    (Tup (Some "127.0.0.1") (Some 40000)) f) in
  ((40000 <> Forwarder.receiver_port f ->
    bogon (Packet_init "start|7|hi|1" (Tup None None) 0) = false ->
    Forwarder.test_state f' = Forwarder.READY /\
    Forwarder.sender_addr f' = Tup (Some "127.0.0.1") (Some 40000) /\
    exists n, py_int (nth 1 (str_split bar "start|7|hi|1") "") = Some n /\
              Forwarder.start_seqno_base f' = Some n) /\
   (40000 = Forwarder.receiver_port f \/
    bogon (Packet_init "start|7|hi|1" (Tup None None) 0) = true ->
    Forwarder.test_state f' = Forwarder.test_state f /\
    Forwarder.sender_addr f' = Forwarder.sender_addr f /\
    Forwarder.start_seqno_base f' = Forwarder.start_seqno_base f)) /\
  (* the probe's sequence field has a space after its sign *)
  (Forwarder.test_state f'' = Forwarder.READY /\
   Forwarder.sender_addr f'' = Tup (Some "127.0.0.1") (Some 40000) /\
   exists n, py_int (nth 1 (str_split bar "start|- 5|1") "") = Some n /\
             Forwarder.start_seqno_base f'' = Some n).
Proof.
  cbv zeta. split.
  - apply handle_receive_learns_sender. reflexivity.
  - apply (handle_receive_learns_sender forward_all
             (fst (Forwarder.start_setup (Forwarder.Forwarder_init 33123 "README")))
             "start|- 5|1" "127.0.0.1" 40000 eq_refl).
    + vm_compute. discriminate.
    + vm_compute. reflexivity.
Defined.

(** ** Frame lemmas for the forwarder's monad *)

Section Kept.
Variable R : Forwarder.Fwd -> Forwarder.Fwd -> Prop.
Hypothesis R_refl : forall g, R g g.
Hypothesis R_trans : forall g1 g2 g3, R g1 g2 -> R g2 g3 -> R g1 g3.

Lemma kept_bind {A B} (m : Forwarder.M A) (k : A -> Forwarder.M B) :
  kept R m -> (forall a, kept R (k a)) -> kept R (Forwarder.bind m k).
Proof.
  intros Hm Hk g. unfold Forwarder.bind. specialize (Hm g).
  destruct (m g) as [g1 [a|e]]; cbn in *; [|exact Hm].
  eapply R_trans; [exact Hm | apply Hk].
Qed.

Lemma kept_get : kept R Forwarder.get.
Proof. intros g. apply R_refl. Qed.

Lemma kept_ret {A} (a : A) : kept R (Forwarder.ret a).
Proof. intros g. apply R_refl. Qed.

Lemma kept_lift {A} (o : outcome A) : kept R (Forwarder.lift o).
Proof. intros g. apply R_refl. Qed.

Lemma kept_raise {A} e : kept R (A := A) (Forwarder.raise e).
Proof. intros g. apply R_refl. Qed.

Lemma kept_modify h : (forall g, R g (h g)) -> kept R (Forwarder.modify h).
Proof. intros H g. apply H. Qed.

End Kept.


Lemma procs_kept_refl g : procs_kept g g.
Proof. repeat split. Qed.

Lemma procs_kept_trans g1 g2 g3 :
  procs_kept g1 g2 -> procs_kept g2 g3 -> procs_kept g1 g3.
Proof. unfold procs_kept. intuition congruence. Qed.

Lemma sends_only_refl g : sends_only g g.
Proof. split; [apply procs_kept_refl | exists []; rewrite app_nil_r; auto]. Qed.

Lemma sends_only_trans g1 g2 g3 :
  sends_only g1 g2 -> sends_only g2 g3 -> sends_only g1 g3.
Proof.
  intros [H1 (xs & T1 & F1)] [H2 (ys & T2 & F2)].
  split; [eapply procs_kept_trans; eauto|].
  exists (xs ++ ys)%list. split; [rewrite T2, T1, app_assoc; reflexivity|].
  apply Forall_app; auto.
Qed.

Ltac kept_step R Rrefl Rtrans :=
  first
  [ match goal with
    | |- kept _ (Forwarder.bind _ _) => refine (kept_bind R Rtrans _ _ _ _); [|intro]
    end
  | exact (kept_get R Rrefl)
  | exact (kept_ret R Rrefl _)
  | exact (kept_lift R Rrefl _)
  | exact (kept_raise R Rrefl _)
  | match goal with
    | |- kept _ (Forwarder.modify _) => refine (kept_modify R _ _); intro
    | |- kept _ (match ?x with _ => _ end) => destruct x
    | |- kept _ (let (_, _) := ?x in _) => destruct x
    end ].

Ltac kept_tac R Rrefl Rtrans :=
  repeat (kept_step R Rrefl Rtrans).

Lemma handle_receive_procs tc message a :
  kept procs_kept (Forwarder.handle_receive tc message a).
Proof.
  unfold Forwarder.handle_receive.
  kept_tac procs_kept procs_kept_refl procs_kept_trans;
    try (destruct (Forwarder.handle_packet _ _));
    repeat split.
Qed.

Ltac finish_sends :=
  cbv beta iota delta [Forwarder.with_state Forwarder.with_store Forwarder.with_procs];
  cbn;
  split; [repeat split
         | first [ exists []; rewrite app_nil_r; split; [reflexivity | constructor]
                 | eexists; split; [reflexivity | repeat constructor] ] ].

Lemma send_sends_only crc l : kept sends_only (Forwarder._send crc l).
Proof.
  unfold Forwarder._send, Forwarder.deref, Forwarder.store, Forwarder.sendto,
    Forwarder.emit.
  kept_tac sends_only sends_only_refl sends_only_trans; finish_sends.
Qed.

Lemma send_all_sends_only crc ls : kept sends_only (Forwarder.send_all crc ls).
Proof.
  induction ls as [|l ls IH]; cbn [Forwarder.send_all].
  - exact (kept_ret sends_only sends_only_refl tt).
  - apply (kept_bind sends_only sends_only_trans);
      [apply send_sends_only | intros; exact IH].
Qed.

Lemma bind_ok {A B} (m : Forwarder.M A) (k : A -> Forwarder.M B) g g1 a :
  m g = (g1, Ok a) -> Forwarder.bind m k g = k a g1.
Proof. intros E. unfold Forwarder.bind. now rewrite E. Qed.

Lemma bind_raise {A B} (m : Forwarder.M A) (k : A -> Forwarder.M B) g g1 e :
  m g = (g1, Raise e) -> Forwarder.bind m k g = (g1, Raise e).
Proof. intros E. unfold Forwarder.bind. now rewrite E. Qed.

Lemma catch_eq {A} (m : Forwarder.M A) g g1 r :
  m g = (g1, r) -> Forwarder.catch m g = (g1, Ok r).
Proof. intros E. unfold Forwarder.catch. now rewrite E. Qed.

(** A tick reports [HandleTick] to the test case, then only sends. *)
Lemma tick_shape crc tc g :
  procs_kept g (fst (Forwarder._tick crc tc g)) /\
  exists xs, Forwarder.trace (fst (Forwarder._tick crc tc g)) =
             (Forwarder.trace g ++ Forwarder.HandleTick :: xs)%list /\
             Forall (fun a => Forwarder.is_send a = true) xs.
Proof.
  unfold Forwarder._tick. erewrite bind_ok by reflexivity.
  match goal with
  | |- context [fst (?m ?g1)] =>
      assert (K : kept sends_only m)
        by (unfold Forwarder.emit;
            kept_tac sends_only sends_only_refl sends_only_trans;
            try apply send_all_sends_only;
            try (destruct (Forwarder.handle_tick _ _));
            finish_sends);
      destruct (K g1) as [P (xs & T & F)]
  end.
  split; [exact P|]. exists xs. split; [|exact F].
  rewrite T. cbn. rewrite <- app_assoc. reflexivity.
Qed.

Lemma tick_procs crc tc : kept procs_kept (Forwarder._tick crc tc).
Proof. intros g. apply tick_shape. Qed.

(** The main loop leaves the receiver alone; it records the sender as exited
    exactly when it ends normally. *)
Lemma main_loop_procs crc tc its g :
  Forwarder.receiver_running (fst (Forwarder.main_loop crc tc its g)) =
    Forwarder.receiver_running g /\
  Forwarder.recv_outfile (fst (Forwarder.main_loop crc tc its g)) =
    Forwarder.recv_outfile g /\
  Forwarder.port (fst (Forwarder.main_loop crc tc its g)) = Forwarder.port g /\
  Forwarder.sender_running (fst (Forwarder.main_loop crc tc its g)) =
    match snd (Forwarder.main_loop crc tc its g) with
    | Ok _ => false
    | Raise _ => Forwarder.sender_running g
    end.
Proof.
  revert g. induction its as [|[r td to|] rest IH]; intros g.
  - repeat split.
  - cbn [Forwarder.main_loop].
    assert (K1 : kept procs_kept
                   (match r with
                    | Some (m, a) => Forwarder.handle_receive tc m a
                    | None => Forwarder.ret tt
                    end))
      by (destruct r as [[m a]|];
          [apply handle_receive_procs | exact (kept_ret procs_kept procs_kept_refl tt)]).
    assert (K2 : kept procs_kept (if td then Forwarder._tick crc tc else Forwarder.ret tt))
      by (destruct td; [apply tick_procs | exact (kept_ret procs_kept procs_kept_refl tt)]).
    specialize (K1 g).
    destruct (match r with
              | Some (m, a) => Forwarder.handle_receive tc m a
              | None => Forwarder.ret tt
              end g) as [g1 [u1|e1]] eqn:E1;
      [rewrite (bind_ok _ _ _ _ _ E1) | rewrite (bind_raise _ _ _ _ _ E1)];
      cbn in K1; [|unfold procs_kept in K1; cbn; intuition].
    specialize (K2 g1).
    destruct ((if td then Forwarder._tick crc tc else Forwarder.ret tt) g1)
      as [g2 [u2|e2]] eqn:E2;
      [rewrite (bind_ok _ _ _ _ _ E2) | rewrite (bind_raise _ _ _ _ _ E2)];
      cbn in K2; [|unfold procs_kept in *; cbn; intuition congruence].
    destruct to.
    + cbn. unfold procs_kept in *. intuition congruence.
    + cbn [Forwarder.bind Forwarder.ret].
      destruct (IH g2) as (A1 & A2 & A3 & A4).
      destruct (Forwarder.main_loop crc tc rest g2) as [g3 [u3|e3]];
        cbn in *; unfold procs_kept in *; intuition congruence.
  - repeat split.
Qed.

Lemma start_setup_facts f :
  snd (Forwarder.start_setup f) = Ok tt /\
  Forwarder.sender_running (fst (Forwarder.start_setup f)) = true /\
  Forwarder.receiver_running (fst (Forwarder.start_setup f)) = true /\
  Forwarder.recv_outfile (fst (Forwarder.start_setup f)) =
    Some ("127.0.0.1." ++ fmt_d (Forwarder.port f)) /\
  Forwarder.port (fst (Forwarder.start_setup f)) = Forwarder.port f.
Proof. repeat split. Qed.

Lemma cleanup_facts g :
  snd (Forwarder.cleanup g) = Ok tt /\
  Forwarder.sender_running (fst (Forwarder.cleanup g)) = false /\
  Forwarder.receiver_running (fst (Forwarder.cleanup g)) = false /\
  Forwarder.recv_outfile (fst (Forwarder.cleanup g)) = Forwarder.recv_outfile g /\
  Forwarder.trace (fst (Forwarder.cleanup g)) =
    (Forwarder.trace g ++
     (if Forwarder.sender_running g then [Forwarder.KillSender] else []) ++
     [Forwarder.KillReceiver])%list.
Proof.
  unfold Forwarder.cleanup. unfold_M.
  destruct (Forwarder.sender_running g) eqn:E; cbn; repeat split;
    [now rewrite <- app_assoc | exact E].
Qed.

(** ** C8: datagrams from unknown and known sources *)

(** Once the sender is learned, a datagram from neither endpoint raises and
    changes nothing: the inbound queue, the heap and the trace are as they
    were, so [handle_packet] is not called. *)
Lemma handle_receive_unknown_source tc message a f :
  Forwarder.test_state f = Forwarder.READY ->
  pyaddr_eqb a (Forwarder.receiver_addr f) = false ->
  pyaddr_eqb a (Forwarder.sender_addr f) = false ->
  Forwarder.handle_receive tc message a f = (f, Raise ValueError_unknown_source).
Proof.
  intros Hs Hr Hsa. unfold Forwarder.handle_receive. unfold_M.
  rewrite Hs. cbv beta iota. rewrite Hr, Hsa. reflexivity.
Qed.

(** Once a baseline is known, a datagram from the receiver is wrapped as a
    packet addressed to the sender, appended to the heap and the inbound
    queue, and [handle_packet] runs once. *)
Lemma handle_receive_from_receiver tc message a f base :
  Forwarder.test_state f = Forwarder.READY ->
  pyaddr_eqb a (Forwarder.receiver_addr f) = true ->
  Forwarder.start_seqno_base f = Some base ->
  let p := Packet_init message (Forwarder.sender_addr f) base in
  let iq := (Forwarder.in_queue f ++ [length (Forwarder.heap f)])%list in
  let qs := Forwarder.handle_packet tc (iq, Forwarder.out_queue f) in
  snd (Forwarder.handle_receive tc message a f) = Ok tt /\
  Forwarder.heap (fst (Forwarder.handle_receive tc message a f)) =
    (Forwarder.heap f ++ [p])%list /\
  Forwarder.trace (fst (Forwarder.handle_receive tc message a f)) =
    (Forwarder.trace f ++ [Forwarder.HandlePacket])%list /\
  (Forwarder.in_queue (fst (Forwarder.handle_receive tc message a f)),
   Forwarder.out_queue (fst (Forwarder.handle_receive tc message a f))) = qs.
Proof.
  intros Hs Hr Hb p iq qs. unfold Forwarder.handle_receive. unfold_M.
  rewrite Hs. cbv beta iota. rewrite Hr, Hb. cbv beta iota.
  subst p iq qs. destruct (Forwarder.handle_packet tc _). repeat split.
Qed.

(** C8 (code defect): the forwarder never initializes [start_seqno_base]
    (it is first assigned when the sender is learned), so on the first run
    a datagram from the known receiver address that arrives before any
    datagram from the sender is neither wrapped nor queued:
    [handle_receive] raises [AttributeError] and [handle_packet] is not
    called. The forwarder's comment says "we add every packet we get to the
    in_queue". *)
Theorem receiver_datagram_before_baseline_raises :
  let f := fst (Forwarder.start_setup (Forwarder.Forwarder_init 33123 "README")) in
  let r := Forwarder.handle_receive forward_all "ack|0|7" receiver_at f in
  Forwarder.receiver_addr f = receiver_at /\
  snd r = Raise AttributeError /\
  Forwarder.in_queue (fst r) = [] /\
  Forwarder.heap (fst r) = [] /\
  Forwarder.trace (fst r) = Forwarder.trace f.
Proof. vm_compute. repeat split. Qed.

(** ** C9: the end of a run *)

(** C9 (spec claim refuted): when the main loop stops on a timeout, no
    final tick is run: the trace goes from the spawns straight to the kills
    and the run fails with the timeout. *)
Lemma start_timeout_skips_final_tick :
  let r := Forwarder.start sample_crc forward_all
             [Forwarder.Iteration None false true]
             (Forwarder.Forwarder_init 33123 "README") in
  snd r = Raise Exception_timed_out /\
  Forwarder.trace (fst r) =
    [Forwarder.SpawnReceiver 33124; Forwarder.SpawnSender "README" 33123;
     Forwarder.KillSender; Forwarder.KillReceiver] /\
  ~ In Forwarder.HandleTick (Forwarder.trace (fst r)).
Proof.
  cbv zeta. split; [vm_compute; reflexivity|].
  match goal with
  | |- ?t = ?l /\ _ =>
      assert (T : t = l) by (vm_compute; reflexivity); rewrite T
  end.
  split; [reflexivity|]. cbn. intuition discriminate.
Qed.

(** C9 (amended): after [start], both subprocesses are recorded as
    killed. If the main loop raised, no final tick runs: the sender is
    killed, then the receiver, and only then does the exception propagate
    (an interrupt as [SystemExit]). If the loop ended because the sender
    exited, one final tick runs (its [handle_tick], then sends only), then
    the receiver is killed, and [result] is called only if that tick did not
    raise. *)
Theorem start_cleans_up_before_failure crc tc its f :
  let g0 := fst (Forwarder.start_setup f) in
  let g1 := fst (Forwarder.main_loop crc tc its g0) in
  let g := fst (Forwarder.start crc tc its f) in
  let r := snd (Forwarder.start crc tc its f) in
  Forwarder.sender_running g = false /\ Forwarder.receiver_running g = false /\
  match snd (Forwarder.main_loop crc tc its g0) with
  | Raise e =>
      Forwarder.trace g =
        (Forwarder.trace g1 ++ [Forwarder.KillSender; Forwarder.KillReceiver])%list /\
      r = Forwarder.exit_on_interrupt (Raise e)
  | Ok _ =>
      exists xs, Forall (fun a => Forwarder.is_send a = true) xs /\
      ((Forwarder.trace g =
          (Forwarder.trace g1 ++ Forwarder.HandleTick :: xs ++
           [Forwarder.KillReceiver;
            Forwarder.Result ("127.0.0.1." ++ fmt_d (Forwarder.port f))])%list /\
        r = Ok tt) \/
       (exists e, Forwarder.trace g =
          (Forwarder.trace g1 ++ Forwarder.HandleTick :: xs ++
           [Forwarder.KillReceiver])%list /\
        r = Raise e))
  end.
Proof.
  cbv zeta.
  destruct (start_setup_facts f) as (S1 & S2 & S3 & S4 & S5).
  destruct (Forwarder.start_setup f) as [g0 r0] eqn:E0.
  cbn [fst snd] in *. subst r0.
  unfold Forwarder.start. rewrite (bind_ok _ _ _ _ _ E0).
  destruct (main_loop_procs crc tc its g0) as (M1 & M2 & M3 & M4).
  destruct (Forwarder.main_loop crc tc its g0) as [g1 [u|e]] eqn:E1;
    cbn [fst snd] in *.
  - destruct (tick_shape crc tc g1) as [P (xs & T & F)].
    destruct (Forwarder._tick crc tc g1) as [g2 r2] eqn:E2. cbn [fst] in P, T.
    rewrite (bind_ok _ _ _ _ _ (catch_eq _ _ _ _ (eq_trans (bind_ok _ _ _ _ _ E1) E2))).
    cbv beta zeta.
    destruct (cleanup_facts g2) as (C1 & C2 & C3 & C4 & C5).
    destruct (Forwarder.cleanup g2) as [g3 r3] eqn:E3. cbn [fst snd] in *. subst r3.
    rewrite (bind_ok _ _ _ _ _ E3).
    destruct P as (P1 & P2 & P3 & P4).
    rewrite P1, M4 in C5. rewrite T in C5.
    destruct r2 as [u2|e2]; [cbn [Forwarder.exit_on_interrupt]|].
    + rewrite (bind_ok (Forwarder.lift (Ok u2)) _ g3 g3 u2 eq_refl).
      rewrite (bind_ok Forwarder.get _ g3 g3 g3 eq_refl).
      rewrite C4, P3, M2, S4.
      cbn. split; [exact C2 | split; [exact C3 |]].
      exists xs. split; [exact F|]. left. split; [|reflexivity].
      rewrite C5. cbn. rewrite <- !app_assoc. reflexivity.
    + assert (X : exists e', Forwarder.exit_on_interrupt (Raise e2) = Raise e')
        by (destruct e2; eexists; reflexivity).
      destruct X as [e' X]. rewrite X.
      rewrite (bind_raise (Forwarder.lift (Raise e')) _ g3 g3 e' eq_refl).
      cbn [fst snd]. split; [exact C2 | split; [exact C3 |]].
      exists xs. split; [exact F|]. right. exists e'. split; [|reflexivity].
      rewrite C5. cbn. rewrite <- !app_assoc. reflexivity.
  - rewrite (bind_ok _ _ _ _ _ (catch_eq _ _ _ _ (bind_raise _ _ _ _ _ E1))).
    cbv beta zeta.
    destruct (cleanup_facts g1) as (C1 & C2 & C3 & C4 & C5).
    destruct (Forwarder.cleanup g1) as [g3 r3] eqn:E3. cbn [fst snd] in *. subst r3.
    rewrite (bind_ok _ _ _ _ _ E3).
    assert (X : exists e', Forwarder.exit_on_interrupt (Raise e) = Raise e')
      by (destruct e; eexists; reflexivity).
    destruct X as [e' X]. rewrite X.
    rewrite (bind_raise (Forwarder.lift (Raise e')) _ g3 g3 e' eq_refl).
    cbn [fst snd]. split; [exact C2 | split; [exact C3 |]].
    rewrite M4, S2 in C5. split; [exact C5 | reflexivity].
Qed.

(** ** C10: the send path recomputes the checksum *)

Lemma replace_nth_lookup {A} (l : list A) n x y :
  nth_error l n = Some y -> nth_error (Forwarder.replace_nth n x l) n = Some x.
Proof.
  revert n. induction l as [|z l IH]; intros [|n] H; simpl in *;
    try discriminate; [reflexivity | exact (IH n H)].
Qed.

(** C10: sending a non-bogon packet (one built by parsing and edited only
    through [update_packet]) re-serializes it with the baseline added back
    and a checksum computed afresh over the new body, whatever checksum
    token it carried before (one kept by [update_checksum=False] included):
    the bytes on the wire are that body followed by its checksum, and the
    stored packet now carries that checksum. *)
Theorem send_recomputes_checksum crc f l p base h q :
  nth_error (Forwarder.heap f) l = Some p ->
  reachable crc p -> bogon p = false ->
  Forwarder.start_seqno_base f = Some base ->
  address p = Tup (Some h) (Some q) ->
  exists t n d, msg_type p = Some t /\ seqno p = Some (SeqInt n) /\ data p = Some d /\
    let body := spec_body t (n + base) d in
    snd (Forwarder._send crc l f) = Ok tt /\
    Forwarder.trace (fst (Forwarder._send crc l f)) =
      (Forwarder.trace f ++
       [Forwarder.SendTo (body ++ generate_checksum crc body) (address p)])%list /\
    exists p', nth_error (Forwarder.heap (fst (Forwarder._send crc l f))) l = Some p' /\
               checksum p' = Some (generate_checksum crc body) /\
               full_packet p' = body ++ generate_checksum crc body.
Proof.
  intros Hl Hr Hb Hbase Ha.
  destruct (reachable_fields crc p Hr Hb) as (t & n & d & ck & Ht & Hn & Hd & Hc).
  exists t, n, d. split; [exact Ht | split; [exact Hn | split; [exact Hd |]]].
  cbv zeta.
  unfold Forwarder._send. unfold_M.
  rewrite Hl. cbv beta iota. rewrite Hn. cbv beta iota.
  rewrite Hbase. cbv beta iota.
  rewrite (update_packet_eq crc p None (Some (n + base)) None None true t n d ck
             Hb Ht Hn Hd Hc).
  cbv beta iota zeta delta [override]. cbn [address]. rewrite Ha.
  cbn. split; [reflexivity | split; [reflexivity |]].
  eexists. split; [eapply replace_nth_lookup; exact Hl | split; reflexivity].
Qed.

Lemma send_recomputes_checksum_witness :
  let p := Packet_init "data|9|hi|1" receiver_at 7 in
  let f := Forwarder.with_state Forwarder.READY sender_at receiver_at (Some 7)
             (Forwarder.with_store [p] [] [0%nat]
                (Forwarder.Forwarder_init 33123 "README")) in
  exists t n d, msg_type p = Some t /\ seqno p = Some (SeqInt n) /\ data p = Some d /\
    let body := spec_body t (n + 7) d in
    snd (Forwarder._send sample_crc 0%nat f) = Ok tt /\
    Forwarder.trace (fst (Forwarder._send sample_crc 0%nat f)) =
      (Forwarder.trace f ++
       [Forwarder.SendTo (body ++ generate_checksum sample_crc body) (address p)])%list /\
    exists p', nth_error (Forwarder.heap (fst (Forwarder._send sample_crc 0%nat f))) 0%nat = Some p' /\
               checksum p' = Some (generate_checksum sample_crc body) /\
               full_packet p' = body ++ generate_checksum sample_crc body.
Proof.
  cbv zeta.
  apply (send_recomputes_checksum sample_crc _ 0%nat _ 7 "127.0.0.1" 33124).
  - reflexivity.
  - apply reach_init.
  - vm_compute. reflexivity.
  - reflexivity.
  - vm_compute. reflexivity.
Defined.

(** * Further properties of the forwarder and its packets *)

(** ** [Packet.__repr__] *)

(** X1: printing a packet built from a datagram without any [|] raises
    [AttributeError] (unpacking [pieces[0:2]] failed, so [msg_type] was
    never assigned); a datagram with at least one [|] always prints, valid
    or not: its first field, its second field (as a relative sequence number
    when it is an integer, verbatim otherwise) and its last field. *)
Theorem Packet_repr_parsed raw addr b :
  Packet___repr__ (Packet_init raw addr b) =
  match str_split bar raw with
  | t :: s :: r =>
      Ok (t ++ "|" ++ (match py_int s with
                       | Some n => fmt_d (n - b)
                       | None => s
                       end) ++ "|...|" ++ last (t :: s :: r)%list EmptyString)
  | _ => Raise AttributeError
  end.
Proof.
  unfold Packet_init. cbv zeta.
  destruct (str_split bar raw) as [|t [|s r]]; [reflexivity | reflexivity |].
  destruct (py_int s); [|reflexivity].
  destruct (incoming_type t); [destruct (py_int (last _ _))|]; reflexivity.
Qed.

Lemma Packet_repr_parsed_witness :
  Packet___repr__ (Packet_init "a|- 5|c" NoAddr 0) = Ok "a|-5|...|c" /\
  Packet___repr__ (Packet_init "bogus" NoAddr 0) = Raise AttributeError.
Proof.
  split; rewrite Packet_repr_parsed; vm_compute; reflexivity.
Defined.

(** ** Sending valid packets *)

Lemma replace_nth_other {A} (h : list A) n m x :
  m <> n -> nth_error (Forwarder.replace_nth n x h) m = nth_error h m.
Proof.
  revert n m. induction h as [|y h IH]; intros [|n] [|m] H; simpl; auto;
    try congruence; apply IH; congruence.
Qed.

(** [_send] on a valid location: it succeeds, puts [sent_bytes] on the wire
    and touches neither the other heap locations, nor the queues, nor the
    baseline. *)
Lemma send_valid crc g l p b hh q :
  nth_error (Forwarder.heap g) l = Some p -> reachable crc p -> bogon p = false ->
  Forwarder.start_seqno_base g = Some b -> address p = Tup (Some hh) (Some q) ->
  snd (Forwarder._send crc l g) = Ok tt /\
  Forwarder.trace (fst (Forwarder._send crc l g)) =
    (Forwarder.trace g ++ [Forwarder.SendTo (sent_bytes crc b p) (address p)])%list /\
  (forall m, m <> l ->
     nth_error (Forwarder.heap (fst (Forwarder._send crc l g))) m =
     nth_error (Forwarder.heap g) m) /\
  Forwarder.in_queue (fst (Forwarder._send crc l g)) = Forwarder.in_queue g /\
  Forwarder.out_queue (fst (Forwarder._send crc l g)) = Forwarder.out_queue g /\
  Forwarder.start_seqno_base (fst (Forwarder._send crc l g)) =
    Forwarder.start_seqno_base g.
Proof.
  intros Hl Hr Hb Hbase Ha.
  destruct (reachable_fields crc p Hr Hb) as (t & n & d & ck & Ht & Hn & Hd & Hc).
  unfold sent_bytes. rewrite Ht, Hn, Hd. cbv zeta.
  unfold Forwarder._send. unfold_M.
  rewrite Hl. cbv beta iota. rewrite Hn. cbv beta iota.
  rewrite Hbase. cbv beta iota.
  rewrite (update_packet_eq crc p None (Some (n + b)) None None true t n d ck
             Hb Ht Hn Hd Hc).
  cbv beta iota zeta delta [override]. cbn [address]. rewrite Ha.
  cbn. split; [reflexivity | split; [reflexivity |]].
  split; [intros m Hm; now apply replace_nth_other | repeat split; auto].
Qed.

Lemma send_all_valid crc ls g b :
  NoDup ls -> Forwarder.start_seqno_base g = Some b ->
  Forall (valid_at crc (Forwarder.heap g)) ls ->
  snd (Forwarder.send_all crc ls g) = Ok tt /\
  Forwarder.trace (fst (Forwarder.send_all crc ls g)) =
    (Forwarder.trace g ++ map (expected_send crc b (Forwarder.heap g)) ls)%list /\
  Forwarder.in_queue (fst (Forwarder.send_all crc ls g)) = Forwarder.in_queue g /\
  Forwarder.out_queue (fst (Forwarder.send_all crc ls g)) = Forwarder.out_queue g.
Proof.
  revert g. induction ls as [|l ls IH]; intros g Hnd Hb Hv.
  - cbn. rewrite app_nil_r. auto.
  - inversion Hnd as [|? ? Hnin Hnd']; subst.
    inversion Hv as [|? ? (p & hh & q & Hl & Hr & Hbg & Ha) Hv']; subst.
    destruct (send_valid crc g l p b hh q Hl Hr Hbg Hb Ha)
      as (S1 & S2 & S3 & S4 & S5 & S6).
    destruct (Forwarder._send crc l g) as [g1 r1] eqn:E1. cbn [fst snd] in *. subst r1.
    cbn [Forwarder.send_all]. rewrite (bind_ok _ _ _ _ _ E1).
    assert (Hsame : forall m, In m ls ->
              nth_error (Forwarder.heap g1) m = nth_error (Forwarder.heap g) m)
      by (intros m Hm; apply S3; intros ->; contradiction).
    destruct (IH g1 Hnd' (eq_trans S6 Hb)) as (I1 & I2 & I3 & I4).
    { rewrite Forall_forall in Hv' |- *. intros m Hm.
      destruct (Hv' m Hm) as (p' & hh' & q' & Hl' & Hrest).
      exists p', hh', q'. rewrite Hsame by exact Hm. auto. }
    split; [exact I1|]. split; [|split; congruence].
    rewrite I2, S2. cbn [map]. unfold expected_send at 2. rewrite Hl.
    rewrite <- app_assoc. cbn [app]. f_equal. f_equal.
    apply map_ext_in. intros m Hm. unfold expected_send. now rewrite Hsame.
Qed.

(** X2: when the packets [handle_tick] leaves in the out queue sit at
    distinct heap locations, are well-formed (parsed, not bogon, edited only
    through [update_packet]) and have a [(host, port)] destination, and the
    baseline is known, a tick reports [HandleTick], sends each of them in
    queue order with the baseline added back and a fresh checksum, and ends
    with an empty out queue and the in queue [handle_tick] left. *)
Theorem tick_flushes_out_queue crc tc g b :
  let q := Forwarder.handle_tick tc (Forwarder.in_queue g, Forwarder.out_queue g) in
  NoDup (snd q) -> Forwarder.start_seqno_base g = Some b ->
  Forall (valid_at crc (Forwarder.heap g)) (snd q) ->
  snd (Forwarder._tick crc tc g) = Ok tt /\
  Forwarder.out_queue (fst (Forwarder._tick crc tc g)) = [] /\
  Forwarder.in_queue (fst (Forwarder._tick crc tc g)) = fst q /\
  Forwarder.trace (fst (Forwarder._tick crc tc g)) =
    (Forwarder.trace g ++ Forwarder.HandleTick ::
       map (expected_send crc b (Forwarder.heap g)) (snd q))%list.
Proof.
  cbv zeta. intros Hnd Hb Hv.
  destruct (Forwarder.handle_tick tc (Forwarder.in_queue g, Forwarder.out_queue g))
    as [iq oq] eqn:Eq. cbn [fst snd] in *.
  unfold Forwarder._tick.
  erewrite bind_ok by reflexivity.
  erewrite bind_ok by (unfold Forwarder.modify; cbn [Forwarder.in_queue Forwarder.out_queue];
                       rewrite Eq; reflexivity).
  erewrite bind_ok by reflexivity.
  cbn [Forwarder.out_queue Forwarder.with_store].
  match goal with
  | |- context [Forwarder.bind (Forwarder.send_all crc oq) _ ?g2] =>
      destruct (send_all_valid crc oq g2 b Hnd Hb Hv) as (A1 & A2 & A3 & A4);
      destruct (Forwarder.send_all crc oq g2) as [g3 r3] eqn:E3
  end.
  cbn [fst snd] in *. subst r3.
  rewrite (bind_ok _ _ _ _ _ E3). cbn.
  split; [reflexivity | split; [reflexivity | split; [exact A3 |]]].
  rewrite A2. cbn. rewrite <- app_assoc. reflexivity.
Qed.

Lemma tick_flushes_out_queue_witness :
  let g := Forwarder.with_state Forwarder.READY sender_at receiver_at (Some 7)
             (Forwarder.with_store
                [Packet_init "data|9|hi|1" receiver_at 7; Packet_init "ack|8|5" sender_at 7]
                [] [0%nat; 1%nat] (Forwarder.Forwarder_init 33123 "README")) in
  snd (Forwarder._tick sample_crc forward_all g) = Ok tt /\
  Forwarder.out_queue (fst (Forwarder._tick sample_crc forward_all g)) = [] /\
  Forwarder.in_queue (fst (Forwarder._tick sample_crc forward_all g)) =
    fst (Forwarder.handle_tick forward_all (Forwarder.in_queue g, Forwarder.out_queue g)) /\
  Forwarder.trace (fst (Forwarder._tick sample_crc forward_all g)) =
    (Forwarder.trace g ++ Forwarder.HandleTick ::
       map (expected_send sample_crc 7 (Forwarder.heap g))
         (snd (Forwarder.handle_tick forward_all
                 (Forwarder.in_queue g, Forwarder.out_queue g))))%list.
Proof.
  cbv zeta.
  apply (tick_flushes_out_queue sample_crc forward_all _ 7).
  - vm_compute. repeat constructor; cbn; intuition discriminate.
  - reflexivity.
  - cbn [Forwarder.handle_tick forward_all Forwarder.in_queue Forwarder.out_queue
         Forwarder.with_state Forwarder.with_store snd].
    constructor; [|constructor; [|constructor]];
      (eexists _, _, _; split; [reflexivity | split; [apply reach_init |
        split; vm_compute; reflexivity]]).
Defined.

(** ** What the forwarder learns, once learned, stays *)

Lemma addr_kept_refl g : addr_kept g g.
Proof. repeat split. Qed.

Lemma addr_kept_trans g1 g2 g3 :
  addr_kept g1 g2 -> addr_kept g2 g3 -> addr_kept g1 g3.
Proof. unfold addr_kept. intuition congruence. Qed.

Lemma send_addr_kept crc l : kept addr_kept (Forwarder._send crc l).
Proof.
  unfold Forwarder._send, Forwarder.deref, Forwarder.store, Forwarder.sendto,
    Forwarder.emit.
  kept_tac addr_kept addr_kept_refl addr_kept_trans; repeat split.
Qed.

Lemma send_all_addr_kept crc ls : kept addr_kept (Forwarder.send_all crc ls).
Proof.
  induction ls as [|l ls IH]; cbn [Forwarder.send_all].
  - exact (kept_ret addr_kept addr_kept_refl tt).
  - apply (kept_bind addr_kept addr_kept_trans);
      [apply send_addr_kept | intros; exact IH].
Qed.

Lemma tick_addr_kept crc tc : kept addr_kept (Forwarder._tick crc tc).
Proof.
  unfold Forwarder._tick, Forwarder.emit.
  kept_tac addr_kept addr_kept_refl addr_kept_trans;
    try apply send_all_addr_kept;
    try (destruct (Forwarder.handle_tick _ _));
    repeat split.
Qed.

Lemma handle_receive_not_new tc message a g :
  Forwarder.test_state g <> Forwarder.NEW ->
  addr_kept g (fst (Forwarder.handle_receive tc message a g)).
Proof.
  intros Hs. unfold Forwarder.handle_receive. unfold_M.
  destruct (Forwarder.test_state g) eqn:E; [| contradiction |];
    cbv beta iota; hr_cases; cbn; unfold addr_kept; cbn; auto.
Qed.

(** X3: once the forwarder has left state NEW (in particular once it has
    learned the sender and moved to READY), the rest of the main loop never
    changes the run state, the sender's or the receiver's address or the
    sequence baseline, whatever datagrams arrive, ticks run or errors
    occur. *)
Theorem main_loop_keeps_learned crc tc its g :
  Forwarder.test_state g <> Forwarder.NEW ->
  addr_kept g (fst (Forwarder.main_loop crc tc its g)).
Proof.
  revert g. induction its as [|[r td to|] rest IH]; intros g Hs.
  - repeat split.
  - cbn [Forwarder.main_loop].
    assert (K1 : addr_kept g (fst (match r with
                                   | Some (m, a) => Forwarder.handle_receive tc m a
                                   | None => Forwarder.ret tt
                                   end g)))
      by (destruct r as [[m a]|];
          [apply handle_receive_not_new; exact Hs | apply addr_kept_refl]).
    destruct (match r with
              | Some (m, a) => Forwarder.handle_receive tc m a
              | None => Forwarder.ret tt
              end g) as [g1 [u1|e1]] eqn:E1;
      [rewrite (bind_ok _ _ _ _ _ E1) | rewrite (bind_raise _ _ _ _ _ E1); exact K1].
    cbn [fst] in K1.
    assert (K2 : kept addr_kept (if td then Forwarder._tick crc tc else Forwarder.ret tt))
      by (destruct td; [apply tick_addr_kept | exact (kept_ret addr_kept addr_kept_refl tt)]).
    specialize (K2 g1).
    destruct ((if td then Forwarder._tick crc tc else Forwarder.ret tt) g1)
      as [g2 [u2|e2]] eqn:E2;
      [rewrite (bind_ok _ _ _ _ _ E2)
      | rewrite (bind_raise _ _ _ _ _ E2); exact (addr_kept_trans _ _ _ K1 K2)].
    cbn [fst] in K2.
    pose proof (addr_kept_trans _ _ _ K1 K2) as K12.
    destruct to.
    + exact K12.
    + cbn [Forwarder.bind Forwarder.ret].
      apply (addr_kept_trans _ _ _ K12). apply IH.
      destruct K12 as [-> _]. exact Hs.
  - apply addr_kept_refl.
Qed.

Lemma main_loop_keeps_learned_witness :
  let g := Forwarder.with_state Forwarder.READY sender_at receiver_at (Some 7)
             (Forwarder.Forwarder_init 33123 "README") in
  addr_kept g (fst (Forwarder.main_loop sample_crc forward_all
    [Forwarder.Iteration (Some ("start|99|x|1", sender_at)) true false;
     Forwarder.Iteration (Some ("ack|3|4", receiver_at)) false false] g)).
Proof.
  cbv zeta. apply main_loop_keeps_learned. discriminate.
Defined.

(** ** How the main loop ends *)

(** X4: the main loop ends normally only if no pass of it timed out and
    no interrupt arrived: a timeout or a [KeyboardInterrupt] always ends it
    with an exception (that one, or an earlier one). *)
Theorem main_loop_ok_no_timeout crc tc its g :
  snd (Forwarder.main_loop crc tc its g) = Ok tt -> forallb iter_ok its = true.
Proof.
  revert g. induction its as [|[r td to|] rest IH]; intros g H.
  - reflexivity.
  - cbn [Forwarder.main_loop] in H.
    destruct (match r with
              | Some (m, a) => Forwarder.handle_receive tc m a
              | None => Forwarder.ret tt
              end g) as [g1 [u1|e1]] eqn:E1;
      [rewrite (bind_ok _ _ _ _ _ E1) in H
      | rewrite (bind_raise _ _ _ _ _ E1) in H; discriminate].
    destruct ((if td then Forwarder._tick crc tc else Forwarder.ret tt) g1)
      as [g2 [u2|e2]] eqn:E2;
      [rewrite (bind_ok _ _ _ _ _ E2) in H
      | rewrite (bind_raise _ _ _ _ _ E2) in H; discriminate].
    destruct to; [discriminate|].
    cbn [Forwarder.bind Forwarder.ret] in H. cbn. exact (IH g2 H).
  - discriminate.
Qed.

Lemma main_loop_ok_no_timeout_witness :
  forallb iter_ok [Forwarder.Iteration (Some ("start|7|hi|1", sender_at)) true false] = true.
Proof.
  apply (main_loop_ok_no_timeout sample_crc forward_all _
           (fst (Forwarder.start_setup (Forwarder.Forwarder_init 33123 "README")))).
  vm_compute. reflexivity.
Defined.

(** ** Relaying a well-formed datagram *)

Lemma Packet_init_serialized_at t n d ck c addr b :
  incoming_type t = true -> str_forall plain ck = true -> py_int ck = Some c ->
  Packet_init (spec_body t n d ++ ck) addr b =
  {| full_packet := spec_body t n d ++ ck; address := addr; start_seqno_base := b;
     msg_type := Some t; seqno := Some (SeqInt (n - b)); checksum := Some ck;
     data := Some d; bogon := false |}.
Proof.
  intros Ht Hck Hc.
  assert (Hn : py_int (fmt_d n) = Some n) by apply py_int_fmt_d.
  pose proof (str_split_single _ _ (incoming_no_bar t Ht)) as St.
  pose proof (str_split_single _ _ (plain_no_bar _ (fmt_d_plain n))) as Sn.
  pose proof (str_split_single _ _ (plain_no_bar _ Hck)) as Sc.
  unfold spec_body. destruct (String.eqb_spec d "") as [->|Hd].
  - replace ((t ++ "|" ++ fmt_d n ++ "|") ++ ck)
      with (t ++ String bar (fmt_d n ++ String bar ck))
      by (rewrite !str_append_assoc; reflexivity).
    rewrite (Packet_init_fields _ addr b t (fmt_d n) [] ck n c); auto.
    rewrite !str_split_app, St, Sn, Sc. reflexivity.
  - replace ((t ++ "|" ++ fmt_d n ++ "|" ++ d ++ "|") ++ ck)
      with (t ++ String bar (fmt_d n ++ String bar (d ++ String bar ck)))
      by (rewrite !str_append_assoc; reflexivity).
    rewrite (Packet_init_fields _ addr b t (fmt_d n) (str_split bar d) ck n c); auto.
    + now rewrite str_join_split.
    + rewrite !str_split_app, St, Sn, Sc. reflexivity.
Qed.

(** Once READY with a baseline, a datagram from the sender (and not from
    the receiver's address) is stored as a packet addressed to the
    receiver. *)
Lemma handle_receive_from_sender tc message a f base :
  Forwarder.test_state f = Forwarder.READY ->
  pyaddr_eqb a (Forwarder.receiver_addr f) = false ->
  pyaddr_eqb a (Forwarder.sender_addr f) = true ->
  Forwarder.start_seqno_base f = Some base ->
  snd (Forwarder.handle_receive tc message a f) = Ok tt /\
  Forwarder.heap (fst (Forwarder.handle_receive tc message a f)) =
    (Forwarder.heap f ++ [Packet_init message (Forwarder.receiver_addr f) base])%list /\
  Forwarder.start_seqno_base (fst (Forwarder.handle_receive tc message a f)) = Some base /\
  Forwarder.trace (fst (Forwarder.handle_receive tc message a f)) =
    (Forwarder.trace f ++ [Forwarder.HandlePacket])%list.
Proof.
  intros Hs Hr Hsa Hb. unfold Forwarder.handle_receive. unfold_M.
  rewrite Hs. cbv beta iota. rewrite Hr, Hsa. cbv beta iota. rewrite Hb.
  cbv beta iota. destruct (Forwarder.handle_packet tc _). repeat split. exact Hb.
Qed.

(** X5: a well-formed datagram from the sender (its type one of the four,
    its sequence number in canonical decimal form, its checksum the one the
    checksum function gives for its body) that the test case relays
    unchanged leaves the forwarder byte for byte as it came in, towards the
    receiver: removing the baseline on arrival and adding it back on
    sending cancel out, and the recomputed checksum is the original one. *)
Theorem relay_well_formed_unchanged crc tc a f base t n d hh q :
  incoming_type t = true ->
  Forwarder.test_state f = Forwarder.READY ->
  pyaddr_eqb a (Forwarder.receiver_addr f) = false ->
  pyaddr_eqb a (Forwarder.sender_addr f) = true ->
  Forwarder.start_seqno_base f = Some base ->
  Forwarder.receiver_addr f = Tup (Some hh) (Some q) ->
  let message := spec_body t n d ++ generate_checksum crc (spec_body t n d) in
  let g := fst (Forwarder.handle_receive tc message a f) in
  let l := length (Forwarder.heap f) in
  snd (Forwarder._send crc l g) = Ok tt /\
  Forwarder.trace (fst (Forwarder._send crc l g)) =
    (Forwarder.trace g ++ [Forwarder.SendTo message (Forwarder.receiver_addr f)])%list.
Proof.
  intros Ht Hs Hr Hsa Hb Hra. cbv zeta.
  set (message := spec_body t n d ++ generate_checksum crc (spec_body t n d)).
  destruct (handle_receive_from_sender tc message a f base Hs Hr Hsa Hb)
    as (R1 & R2 & R3 & R4).
  set (g := fst (Forwarder.handle_receive tc message a f)) in *.
  set (p := Packet_init message (Forwarder.receiver_addr f) base) in *.
  assert (Hp : p =
    {| full_packet := message; address := Forwarder.receiver_addr f;
       start_seqno_base := base; msg_type := Some t; seqno := Some (SeqInt (n - base));
       checksum := Some (generate_checksum crc (spec_body t n d));
       data := Some d; bogon := false |})
    by (apply (Packet_init_serialized_at _ _ _ _ (Z.of_N (crc (spec_body t n d))));
        [exact Ht | apply fmt_d_plain | apply py_int_fmt_d]).
  assert (Hl : nth_error (Forwarder.heap g) (length (Forwarder.heap f)) = Some p)
    by (rewrite R2, nth_error_app2, Nat.sub_diag by lia; reflexivity).
  assert (Hbg : bogon p = false) by (rewrite Hp; reflexivity).
  assert (Ha : address p = Tup (Some hh) (Some q)) by (rewrite Hp; exact Hra).
  destruct (send_valid crc g _ p base hh q Hl (reach_init crc _ _ _) Hbg R3 Ha)
    as (S1 & S2 & _).
  split; [exact S1|]. rewrite S2. do 3 f_equal.
  - rewrite Hp. unfold sent_bytes. cbn. now rewrite Z.sub_add.
  - rewrite Hp. reflexivity.
Qed.

Lemma relay_well_formed_unchanged_witness :
  let f := Forwarder.with_state Forwarder.READY sender_at receiver_at (Some 7)
             (Forwarder.Forwarder_init 33123 "README") in
  let message := spec_body "data" 12 "hi" ++
                 generate_checksum sample_crc (spec_body "data" 12 "hi") in
  let g := fst (Forwarder.handle_receive forward_all message sender_at f) in
  let l := length (Forwarder.heap f) in
  snd (Forwarder._send sample_crc l g) = Ok tt /\
  Forwarder.trace (fst (Forwarder._send sample_crc l g)) =
    (Forwarder.trace g ++ [Forwarder.SendTo message (Forwarder.receiver_addr f)])%list.
Proof.
  apply (relay_well_formed_unchanged sample_crc forward_all sender_at _ 7
           "data" 12 "hi" "127.0.0.1" 33124); vm_compute; reflexivity.
Defined.

(** ** State carried from one run to the next *)

Lemma Packet_init_address raw addr b : address (Packet_init raw addr b) = addr.
Proof.
  unfold Packet_init. cbv zeta.
  destruct (str_split bar raw) as [|t [|s r]]; try reflexivity.
  destruct (py_int s); [|reflexivity].
  destruct (incoming_type t); [destruct (py_int (last _ _))|]; reflexivity.
Qed.

Lemma send_no_address crc g l p b :
  nth_error (Forwarder.heap g) l = Some p -> reachable crc p -> bogon p = false ->
  Forwarder.start_seqno_base g = Some b -> address p = NoAddr ->
  snd (Forwarder._send crc l g) = Raise TypeError.
Proof.
  intros Hl Hr Hb Hbase Ha.
  destruct (reachable_fields crc p Hr Hb) as (t & n & d & ck & Ht & Hn & Hd & Hc).
  unfold Forwarder._send. unfold_M.
  rewrite Hl. cbv beta iota. rewrite Hn. cbv beta iota.
  rewrite Hbase. cbv beta iota.
  rewrite (update_packet_eq crc p None (Some (n + b)) None None true t n d ck
             Hb Ht Hn Hd Hc).
  cbv beta iota zeta delta [override]. cbn [address]. rewrite Ha. reflexivity.
Qed.

(** A packet stored with no destination cannot be sent: [_send] raises
    [AttributeError] when the datagram had fewer than two fields (there is
    no [seqno]), and [TypeError] otherwise (a string [seqno] cannot be
    added to the baseline, and [sendto] gets no [(host, port)]). *)
Lemma send_stored_no_address crc g l raw b' b :
  nth_error (Forwarder.heap g) l = Some (Packet_init raw NoAddr b') ->
  Forwarder.start_seqno_base g = Some b ->
  snd (Forwarder._send crc l g) =
    Raise (match str_split bar raw with
           | _ :: _ :: _ => TypeError
           | _ => AttributeError
           end).
Proof.
  intros Hl Hb.
  destruct (bogon (Packet_init raw NoAddr b')) eqn:Hbg.
  - assert (Hu : forall mt sq d fp uc,
               update_packet crc (Packet_init raw NoAddr b') mt sq d fp uc =
               Ok (Packet_init raw NoAddr b'))
      by (intros; unfold update_packet; now rewrite Hbg).
    assert (Hsq : seqno (Packet_init raw NoAddr b') =
                  match str_split bar raw with
                  | _ :: s :: _ =>
                      Some (match py_int s with
                            | Some n => SeqInt (n - b')
                            | None => SeqStr s
                            end)
                  | _ => None
                  end).
    { unfold Packet_init. cbv zeta.
      destruct (str_split bar raw) as [|t [|s r]]; try reflexivity.
      destruct (py_int s); [|reflexivity].
      destruct (incoming_type t); [destruct (py_int _)|]; reflexivity. }
    unfold Forwarder._send. unfold_M. rewrite Hl. cbv beta iota.
    rewrite Hsq. destruct (str_split bar raw) as [|t [|s r]]; try reflexivity.
    cbv beta iota. rewrite Hb. cbv beta iota.
    destruct (py_int s); cbv beta iota; [|reflexivity].
    rewrite Hu. cbv beta iota. rewrite Packet_init_address. reflexivity.
  - destruct (Packet_init_seqno raw NoAddr b' Hbg) as (t & s & rr & n & Hsp & _ & _).
    rewrite Hsp.
    eapply send_no_address;
      [exact Hl | apply reach_init | exact Hbg | exact Hb | apply Packet_init_address].
Qed.

(** X6: [start] resets the run state and both addresses but neither the
    sequence baseline nor the heap. So in a run after one that learned a
    baseline [b], any datagram from the receiver that arrives before any
    from the sender is accepted: it is wrapped with the previous run's
    baseline, addressed to [None] (the sender is not known yet), and
    [handle_packet] runs on it; when a tick then sends it, [_send] raises:
    [TypeError] if the datagram has at least two fields, [AttributeError]
    (no [seqno]) if not. *)
Theorem later_run_stale_baseline crc tc f b message :
  Forwarder.start_seqno_base f = Some b ->
  let g0 := fst (Forwarder.start_setup f) in
  let a := Tup (Some "127.0.0.1") (Some (Forwarder.receiver_port f)) in
  let g := fst (Forwarder.handle_receive tc message a g0) in
  snd (Forwarder.handle_receive tc message a g0) = Ok tt /\
  Forwarder.trace g = (Forwarder.trace g0 ++ [Forwarder.HandlePacket])%list /\
  nth_error (Forwarder.heap g) (length (Forwarder.heap f)) =
    Some (Packet_init message NoAddr b) /\
  snd (Forwarder._send crc (length (Forwarder.heap f)) g) =
    Raise (match str_split bar message with
           | _ :: _ :: _ => TypeError
           | _ => AttributeError
           end).
Proof.
  intros Hb. cbv zeta.
  unfold Forwarder.handle_receive, Forwarder.start_setup. unfold_M.
  cbn -[Packet_init Forwarder.handle_packet fmt_d].
  rewrite !Z.eqb_refl, Hb. cbn -[Packet_init Forwarder.handle_packet fmt_d].
  rewrite Z.eqb_refl. cbn -[Packet_init Forwarder.handle_packet fmt_d].
  destruct (Forwarder.handle_packet tc _) as [iq oq].
  cbn [fst snd Forwarder.heap Forwarder.trace].
  split; [reflexivity | split; [reflexivity |]].
  assert (Hl : nth_error (Forwarder.heap f ++ [Packet_init message NoAddr b])%list
                 (length (Forwarder.heap f)) = Some (Packet_init message NoAddr b))
    by (rewrite nth_error_app2, Nat.sub_diag by lia; reflexivity).
  split; [exact Hl|].
  apply (send_stored_no_address crc _ _ message b b); [exact Hl | reflexivity].
Qed.

Lemma later_run_stale_baseline_witness :
  let f := Forwarder.with_state Forwarder.READY sender_at receiver_at (Some 7)
             (Forwarder.Forwarder_init 33123 "README") in
  let g0 := fst (Forwarder.start_setup f) in
  let a := Tup (Some "127.0.0.1") (Some (Forwarder.receiver_port f)) in
  let g := fst (Forwarder.handle_receive forward_all "bogus" a g0) in
  snd (Forwarder.handle_receive forward_all "bogus" a g0) = Ok tt /\
  Forwarder.trace g = (Forwarder.trace g0 ++ [Forwarder.HandlePacket])%list /\
  nth_error (Forwarder.heap g) (length (Forwarder.heap f)) =
    Some (Packet_init "bogus" NoAddr 7) /\
  snd (Forwarder._send sample_crc (length (Forwarder.heap f)) g) =
    Raise AttributeError.
Proof.
  apply (later_run_stale_baseline sample_crc forward_all _ 7 "bogus").
  reflexivity.
Defined.

(** ** The first datagram of a run *)

Lemma Packet_init_bogon_indep raw addr b addr' b' :
  bogon (Packet_init raw addr b) = bogon (Packet_init raw addr' b').
Proof.
  unfold Packet_init. destruct (str_split bar raw) as [|t [|s r]]; try reflexivity.
  cbv zeta. destruct (py_int s); [|reflexivity].
  destruct (incoming_type t); [|reflexivity].
  destruct (py_int _); reflexivity.
Qed.

(** X7: while the run state is NEW and no sender is known, a datagram that
    does not parse (with baseline 0) and does not come from the receiver's
    address cannot teach the forwarder the sender, so it comes from an
    unknown source: [handle_receive] raises [ValueError] and leaves the
    forwarder as it was, which ends the run. *)
Theorem new_unparsable_first_datagram_aborts tc message a f :
  Forwarder.test_state f = Forwarder.NEW ->
  Forwarder.sender_addr f = NoAddr ->
  (exists h q, a = Tup h q) ->
  pyaddr_eqb a (Forwarder.receiver_addr f) = false ->
  bogon (Packet_init message (Tup None None) 0) = true ->
  Forwarder.handle_receive tc message a f = (f, Raise ValueError_unknown_source).
Proof.
  intros Hs Hsa (h & q & ->) Hr Hb. unfold Forwarder.handle_receive. unfold_M.
  rewrite Hs, Hb. cbv beta iota delta [negb].
  destruct (match Forwarder.port_of (Tup h q) with
            | Some q0 => (q0 =? Forwarder.receiver_port f)%Z
            | None => false
            end); cbv beta iota; rewrite Hr, Hsa; reflexivity.
Qed.

Lemma new_unparsable_first_datagram_aborts_witness :
  let f := fst (Forwarder.start_setup (Forwarder.Forwarder_init 33123 "README")) in
  Forwarder.handle_receive forward_all "hello" sender_at f =
    (f, Raise ValueError_unknown_source).
Proof.
  apply new_unparsable_first_datagram_aborts.
  - reflexivity.
  - reflexivity.
  - exists (Some "127.0.0.1"), (Some 40000). reflexivity.
  - vm_compute. reflexivity.
  - vm_compute. reflexivity.
Defined.

(** X8: the datagram from which the forwarder learns the sender is itself
    stored, addressed to the receiver, with relative sequence number 0, and
    appended to the in queue before [handle_packet] runs: sequence numbers
    seen by the test case start from zero. *)
Theorem new_first_datagram_seqno_zero tc message h q f :
  Forwarder.test_state f = Forwarder.NEW ->
  q <> Forwarder.receiver_port f ->
  pyaddr_eqb (Tup (Some h) (Some q)) (Forwarder.receiver_addr f) = false ->
  bogon (Packet_init message (Tup None None) 0) = false ->
  let r := Forwarder.handle_receive tc message (Tup (Some h) (Some q)) f in
  snd r = Ok tt /\
  exists p, Forwarder.heap (fst r) = (Forwarder.heap f ++ [p])%list /\
    (Forwarder.in_queue (fst r), Forwarder.out_queue (fst r)) =
      Forwarder.handle_packet tc
        ((Forwarder.in_queue f ++ [length (Forwarder.heap f)])%list,
         Forwarder.out_queue f) /\
    address p = Forwarder.receiver_addr f /\
    bogon p = false /\ seqno p = Some (SeqInt 0).
Proof.
  intros Hs Hq Hr Hb. cbv zeta.
  destruct (Packet_init_seqno _ _ _ Hb) as (t & s & rr & n & Hsp & Hn & Hsq).
  assert (Hv : Forwarder.seqno_value (Packet_init message (Tup None None) 0) = Some n)
    by (unfold Forwarder.seqno_value; rewrite Hsq; f_equal; lia).
  unfold Forwarder.handle_receive. unfold_M. rewrite Hs. cbn [Forwarder.port_of].
  apply Z.eqb_neq in Hq. rewrite Hq, Hb, Hv. cbv beta iota delta [negb].
  cbv beta iota delta [Forwarder.with_state].
  cbn [Forwarder.receiver_addr Forwarder.sender_addr Forwarder.start_seqno_base].
  rewrite Hr.
  assert (Hself : pyaddr_eqb (Tup (Some h) (Some q)) (Tup (Some h) (Some q)) = true)
    by (cbn; now rewrite String.eqb_refl, Z.eqb_refl).
  rewrite Hself. cbv beta iota.
  destruct (Forwarder.handle_packet tc _) eqn:Hhp. cbn.
  split; [reflexivity|].
  eexists. split; [reflexivity|].
  split; [first [reflexivity | symmetry; exact Hhp]|].
  assert (Hb' : bogon (Packet_init message (Forwarder.receiver_addr f) n) = false)
    by (rewrite (Packet_init_bogon_indep _ _ _ (Tup None None) 0); exact Hb).
  split; [apply Packet_init_address|]. split; [exact Hb'|].
  destruct (Packet_init_seqno _ _ _ Hb') as (t' & s' & rr' & n' & Hsp' & Hn' & Hsq').
  rewrite Hsq'. rewrite Hsp in Hsp'. injection Hsp' as <- <- <-.
  rewrite Hn in Hn'. injection Hn' as <-. now rewrite Z.sub_diag.
Qed.

Lemma new_first_datagram_seqno_zero_witness :
  let f := fst (Forwarder.start_setup (Forwarder.Forwarder_init 33123 "README")) in
  let r := Forwarder.handle_receive forward_all "start|- 5|1"
             (Tup (Some "127.0.0.1") (Some 40000)) f in
  snd r = Ok tt /\
  exists p, Forwarder.heap (fst r) = (Forwarder.heap f ++ [p])%list /\
    (Forwarder.in_queue (fst r), Forwarder.out_queue (fst r)) =
      Forwarder.handle_packet forward_all
        ((Forwarder.in_queue f ++ [length (Forwarder.heap f)])%list,
         Forwarder.out_queue f) /\
    address p = Forwarder.receiver_addr f /\
    bogon p = false /\ seqno p = Some (SeqInt 0).
Proof.
  apply new_first_datagram_seqno_zero.
  - reflexivity.
  - discriminate.
  - vm_compute. reflexivity.
  - vm_compute. reflexivity.
Defined.

(** ** Running the registered tests *)

(** X9: [execute_tests] stops at the first run that raises: whatever tests
    come after it are never started, and the exception is that run's. *)
Theorem execute_tests_stops_at_failure crc l1 l2 g e :
  snd (execute_tests crc l1 g) = Raise e ->
  execute_tests crc (l1 ++ l2) g = execute_tests crc l1 g.
Proof.
  revert g. induction l1 as [|[[t i] its] l1 IH]; intros g H.
  - discriminate H.
  - cbn [execute_tests app] in *. unfold Forwarder.bind, Forwarder.modify in *.
    destruct (Forwarder.start crc t its (set_current_test i g)) as [g1 [[]|e1]].
    + apply IH. exact H.
    + reflexivity.
Qed.

Lemma execute_tests_stops_at_failure_witness :
  let g := Forwarder.Forwarder_init 33123 "" in
  let l1 := [(forward_all, "README", [Forwarder.Interrupted])] in
  let l2 := [(forward_all, "data.txt", [])] in
  snd (execute_tests sample_crc l1 g) = Raise SystemExit /\
  execute_tests sample_crc (l1 ++ l2) g = execute_tests sample_crc l1 g.
Proof.
  cbv zeta. split; [vm_compute; reflexivity|].
  apply (execute_tests_stops_at_failure _ _ _ _ SystemExit). vm_compute. reflexivity.
Defined.

Lemma sender_spawns_app tr1 tr2 :
  sender_spawns (tr1 ++ tr2) = (sender_spawns tr1 ++ sender_spawns tr2)%list.
Proof.
  induction tr1 as [|[] tr1 IH]; cbn; try rewrite IH; reflexivity.
Qed.

Lemma sender_spawns_sends xs :
  Forall (fun a => Forwarder.is_send a = true) xs -> sender_spawns xs = [].
Proof.
  induction 1 as [|[] xs Ha _ IH]; cbn in *; try discriminate; auto.
Qed.

Lemma no_spawn_refl g : no_spawn g g.
Proof. split; reflexivity. Qed.

Lemma no_spawn_trans g1 g2 g3 : no_spawn g1 g2 -> no_spawn g2 g3 -> no_spawn g1 g3.
Proof. intros [P1 S1] [P2 S2]. split; congruence. Qed.

Ltac finish_no_spawn :=
  unfold no_spawn;
  cbv beta iota delta [Forwarder.with_state Forwarder.with_store Forwarder.with_procs];
  cbn; split; [reflexivity|];
  try (rewrite sender_spawns_app; cbn; rewrite app_nil_r); reflexivity.

Lemma handle_receive_no_spawn tc message a :
  kept no_spawn (Forwarder.handle_receive tc message a).
Proof.
  unfold Forwarder.handle_receive, Forwarder.emit.
  kept_tac no_spawn no_spawn_refl no_spawn_trans;
    try (destruct (Forwarder.handle_packet _ _)); finish_no_spawn.
Qed.

Lemma tick_no_spawn crc tc : kept no_spawn (Forwarder._tick crc tc).
Proof.
  intros g. destruct (tick_shape crc tc g) as [(_ & _ & _ & P) (xs & T & F)].
  split; [exact P|]. rewrite T, sender_spawns_app. cbn.
  rewrite (sender_spawns_sends xs F), app_nil_r. reflexivity.
Qed.

Lemma main_loop_no_spawn crc tc its : kept no_spawn (Forwarder.main_loop crc tc its).
Proof.
  induction its as [|[r td to|] rest IH]; cbn [Forwarder.main_loop].
  - apply kept_modify. intros g. finish_no_spawn.
  - apply (kept_bind no_spawn no_spawn_trans).
    { destruct r as [[m a]|];
        [apply handle_receive_no_spawn | exact (kept_ret no_spawn no_spawn_refl tt)]. }
    intros _. apply (kept_bind no_spawn no_spawn_trans).
    { destruct td; [apply tick_no_spawn | exact (kept_ret no_spawn no_spawn_refl tt)]. }
    intros _. apply (kept_bind no_spawn no_spawn_trans); [|intros _; exact IH].
    destruct to;
      [exact (kept_raise no_spawn no_spawn_refl _) | exact (kept_ret no_spawn no_spawn_refl tt)].
  - exact (kept_raise no_spawn no_spawn_refl _).
Qed.

(** A run starts exactly one sender, on the current test's input file and
    the forwarder's port, however it ends; the port stays as it was. *)
Lemma start_spawns_once crc tc its g :
  Forwarder.port (fst (Forwarder.start crc tc its g)) = Forwarder.port g /\
  sender_spawns (Forwarder.trace (fst (Forwarder.start crc tc its g))) =
    (sender_spawns (Forwarder.trace g) ++
     [(Forwarder.input_file g, Forwarder.port g)])%list.
Proof.
  unfold Forwarder.start. erewrite bind_ok by reflexivity.
  match goal with
  | |- context [fst (Forwarder.bind ?m ?k ?g1)] =>
      assert (K : kept no_spawn (Forwarder.bind m k));
      [|destruct (K g1) as [P S]]
  end.
  - apply (kept_bind no_spawn no_spawn_trans).
    { intros g0. unfold Forwarder.catch.
      pose proof (K0 := kept_bind no_spawn no_spawn_trans _ _
                          (main_loop_no_spawn crc tc its)
                          (fun _ => tick_no_spawn crc tc) g0).
      destruct (Forwarder.bind _ _ g0). exact K0. }
    intros r. cbv zeta. unfold Forwarder.cleanup, Forwarder.emit.
    kept_tac no_spawn no_spawn_refl no_spawn_trans; finish_no_spawn.
  - rewrite P, S. cbn. split; [reflexivity|].
    rewrite !sender_spawns_app. cbn. rewrite app_nil_r. reflexivity.
Qed.

(** X10: when [execute_tests] returns normally, the sender was started once
    per registered test, in the order the tests were run, each time on that
    test's input file and on the forwarder's port. *)
Theorem execute_tests_spawns_each_sender crc tests g :
  snd (execute_tests crc tests g) = Ok tt ->
  sender_spawns (Forwarder.trace (fst (execute_tests crc tests g))) =
    (sender_spawns (Forwarder.trace g) ++
     map (fun '(_, input, _) => (input, Forwarder.port g)) tests)%list.
Proof.
  revert g. induction tests as [|[[t i] its] rest IH]; intros g H.
  - cbn. now rewrite app_nil_r.
  - cbn [execute_tests map] in *. unfold Forwarder.bind, Forwarder.modify in *.
    pose proof (start_spawns_once crc t its (set_current_test i g)) as [P S].
    destruct (Forwarder.start crc t its (set_current_test i g)) as [g1 [[]|e1]];
      [|discriminate H].
    cbn [fst] in P, S. rewrite (IH g1 H), S, P. cbn. rewrite <- app_assoc. reflexivity.
Qed.

Lemma execute_tests_spawns_each_sender_witness :
  let g := Forwarder.Forwarder_init 33123 "" in
  let tests := [(forward_all, "README", []); (duplicate_on_tick, "data.txt", [])] in
  snd (execute_tests sample_crc tests g) = Ok tt /\
  sender_spawns (Forwarder.trace (fst (execute_tests sample_crc tests g))) =
    [("README", 33123); ("data.txt", 33123)].
Proof.
  cbv zeta. split; [vm_compute; reflexivity|].
  rewrite (execute_tests_spawns_each_sender sample_crc _ _); [reflexivity|].
  vm_compute. reflexivity.
Defined.
